(** * binance_mcp_w_resource.py: a shallow embedding and its specification

    The module exposes three tools: [get_price], [get_price_price_change]
    and [get_option_premium], on top of the helper [get_symbol_from_name].
    Each definition below follows the Python function of the same name.

    - A Python [str] is a sequence of Unicode code points ([pystr]).
    - A Python [float] (and a float64 cell of a DataFrame) is an IEEE-754
      binary64 number, [SpecFloat.spec_float] at precision 53.
    - A dict is an association list in insertion order.
    - Whatever lives outside the module is an oracle: the Unicode tables,
      the HTTP endpoints, the clock, the yfinance provider, numpy's
      argsort and the float-to-text conversion ([Unicode] and [Env]).
    - Statements have effects (the log file, the outgoing calls) and may
      raise: they live in the monad [M], a state monad over [World] whose
      results are [Ret v] or [Raise e].
    - The log file is its content; whether the file exists is not part of
      the model, so the resource [activity_log], which reads the file and
      fails when there is none, is left out, and so are [symbol_map] and
      the start of the server. *)

From Stdlib Require Import ZArith NArith List Bool Lia String Ascii.
From Stdlib Require Import DecimalString SpecFloat Permutation Sorted.
Import ListNotations.

Open Scope Z_scope.

(* ================================================================== *)
(** * Python strings *)

Definition codepoint := N.
Definition pystr := list codepoint.

(** A literal: the code points of an ASCII Rocq string. *)
Definition py (s : string) : pystr :=
  map N_of_ascii (list_ascii_of_string s).
Arguments py : simpl never.

Definition pystr_eqb (s t : pystr) : bool :=
  if list_eq_dec N.eq_dec s t then true else false.

(** [x in [a; b]] on strings. *)
Definition str_in_list (s : pystr) (l : list pystr) : bool :=
  existsb (pystr_eqb s) l.

(** ['c' in s] for a one-character needle. *)
Definition char_in (c : codepoint) (s : pystr) : bool :=
  existsb (N.eqb c) s.

(** [needle in haystack]. *)
Fixpoint starts_with (p s : pystr) : bool :=
  match p, s with
  | [], _ => true
  | _ :: _, [] => false
  | a :: p', b :: s' => N.eqb a b && starts_with p' s'
  end.

Fixpoint contains (hay needle : pystr) : bool :=
  starts_with needle hay ||
  match hay with
  | [] => false
  | _ :: hay' => contains hay' needle
  end.

Definition is_ascii (s : pystr) : bool :=
  forallb (fun c => N.ltb c 128) s.

(** The case mapping of the code points below 128. *)
Definition ascii_upper (c : codepoint) : codepoint :=
  if (N.leb 97 c && N.leb c 122)%bool then (c - 32)%N else c.

Definition ascii_lower (c : codepoint) : codepoint :=
  if (N.leb 65 c && N.leb c 90)%bool then (c + 32)%N else c.

(** The Unicode character database, as far as the module depends on it.
    It is data of the interpreter, not of the module, so it is a
    parameter.  Only code points from 128 on are looked up in it.
    [str.upper] maps a code point on its own; [str.lower] sees the whole
    string and the position (the final-sigma rule). *)
Record Unicode := {
  upper_ext : codepoint -> list codepoint;
  lower_ext : pystr -> nat -> codepoint -> list codepoint;
  digit_ext : codepoint -> option Z
}.

Section Strings.
Variable U : Unicode.

(** [s.upper()] *)
Definition py_upper (s : pystr) : pystr :=
  flat_map (fun c => if N.ltb c 128 then [ascii_upper c]
                     else upper_ext U c) s.

Fixpoint lower_from (whole : pystr) (i : nat) (s : pystr) : pystr :=
  match s with
  | [] => []
  | c :: s' =>
      (if N.ltb c 128 then [ascii_lower c] else lower_ext U whole i c)
        ++ lower_from whole (S i) s'
  end.

(** [s.lower()] *)
Definition py_lower (s : pystr) : pystr := lower_from s 0 s.

(** The value of a decimal digit ([\d] of a str pattern, [int] of a
    one-character string). *)
Definition digit_val (c : codepoint) : option Z :=
  if (N.leb 48 c && N.leb c 57)%bool then Some (Z.of_N c - 48)
  else if N.ltb c 128 then None
  else digit_ext U c.

(* ---------------------------------------------------------------- *)
(** * The symbol normalizer (lines 14-20) *)

Definition get_symbol_from_name (name : pystr) : pystr :=
  if str_in_list (py_lower name) [py "bitcoin"; py "btc"] then
    py "BTCUSDT"
  else if str_in_list (py_lower name) [py "ethereum"; py "eth"] then
    py "ETHUSDT"
  else
    py_upper name.

End Strings.

(** [s] is [t] written in some casing: letter by letter the same up to the
    case of the ASCII letters. *)
Fixpoint casing_of (s t : pystr) : bool :=
  match s, t with
  | [], [] => true
  | c :: s', d :: t' =>
      N.ltb c 128 && N.eqb (ascii_lower c) (ascii_lower d) && casing_of s' t'
  | _, _ => false
  end.

(** An excerpt of the Unicode tables: the row of U+0131 LATIN SMALL LETTER
    DOTLESS I, whose uppercase is U+0049 (the ASCII capital I) and which is
    its own lowercase.  Every other code point is left as it is, which is
    right for a string whose only non-ASCII letter is U+0131. *)
Definition ucd_excerpt : Unicode := {|
  upper_ext := fun c => if N.eqb c 305 then [73%N] else [c];
  lower_ext := fun _ _ c => [c];
  digit_ext := fun _ => None
|}.

(** "bıtcoin": bitcoin spelled with a dotless i. *)
Definition dotless_bitcoin : pystr :=
  [98; 305; 116; 99; 111; 105; 110]%N.

(* ================================================================== *)
(** * Numbers *)

(** Python floats and float64 cells: IEEE-754 binary64, rounding to
    nearest, ties to even. *)
Definition float := spec_float.

Definition prec : Z := 53.
Definition emax : Z := 1024.

Definition fadd : float -> float -> float := SFadd prec emax.
Definition fsub : float -> float -> float := SFsub prec emax.
Definition fdiv : float -> float -> float := SFdiv prec emax.
Definition fabs : float -> float := SFabs.
Definition fltb : float -> float -> bool := SFltb.
Definition fleb : float -> float -> bool := SFleb.
Definition feqb : float -> float -> bool := SFeqb.

Definition is_nan (x : float) : bool :=
  match x with S754_nan => true | _ => false end.

(** [float(z)] of an integer. *)
Definition float_of_Z (z : Z) : float := binary_normalize prec emax z 0 false.

(** The float written as the decimal literal [num / den], [den] a power of
    ten: both are exact floats when below 2^53, and the division rounds
    correctly, as the reading of a literal does. *)
Definition float_of_decimal (num den : Z) : float :=
  fdiv (float_of_Z num) (float_of_Z den).

(** The literal [0.01] of line 137 and the [2] of line 169. *)
Definition tolerance : float := float_of_decimal 1 100.
Definition two : float := float_of_Z 2.

(** [pd.notna] on a float64 cell. *)
Definition notna (x : float) : bool := negb (is_nan x).

(** The order numpy sorts floats in: ascending, NaN last. *)
Definition np_le (x y : float) : bool := fleb x y || is_nan y.

(** [str(z)] of an integer. *)
Definition str_of_Z (z : Z) : pystr := py (NilZero.string_of_int (Z.to_int z)).

(* ================================================================== *)
(** * Calendar dates, [datetime.strptime] and [date.strftime] *)

Record date := mkdate { year : Z; month : Z; day : Z }.

Definition is_leap (y : Z) : bool :=
  (y mod 4 =? 0) && (negb (y mod 100 =? 0) || (y mod 400 =? 0)).

Definition days_in_month (y m : Z) : Z :=
  if m =? 2 then (if is_leap y then 29 else 28)
  else if (m =? 4) || (m =? 6) || (m =? 9) || (m =? 11) then 30
  else 31.

(** What the constructor of [datetime.date] accepts. *)
Definition valid_date (d : date) : bool :=
  (1 <=? year d) && (year d <=? 9999) &&
  (1 <=? month d) && (month d <=? 12) &&
  (1 <=? day d) && (day d <=? days_in_month (year d) (month d)).

(** The directives the module's two formats are made of. *)
Inductive directive :=
| DirY | DirM | DirD
| Lit (c : codepoint).

(** Reading a format string.  Only the three directives of the module's
    formats are covered: [None] on any other. *)
Fixpoint compile_format (fmt : pystr) : option (list directive) :=
  match fmt with
  | [] => Some []
  | 37%N :: 89%N :: rest => option_map (cons DirY) (compile_format rest)
  | 37%N :: 109%N :: rest => option_map (cons DirM) (compile_format rest)
  | 37%N :: 100%N :: rest => option_map (cons DirD) (compile_format rest)
  | 37%N :: _ => None
  | c :: rest => option_map (cons (Lit c)) (compile_format rest)
  end.

Definition pad2 (z : Z) : pystr :=
  if z <? 10 then 48%N :: str_of_Z z else str_of_Z z.

(** [d.strftime("%Y-%m-%d")]: the year is printed by the C library, which
    on Linux does not pad it; month and day take two digits. *)
Definition strftime_iso (d : date) : pystr :=
  str_of_Z (year d) ++ py "-" ++ pad2 (month d) ++ py "-" ++ pad2 (day d).

Section Strptime.
Variable U : Unicode.

Definition in_range (lo hi c : codepoint) : bool :=
  (N.leb lo c && N.leb c hi)%bool.

Definition ascii_digit (c : codepoint) : Z := Z.of_N c - 48.

(** One alternative of a directive's pattern: the value it reads and
    the text left, when it matches at the head of [s]. *)
Definition alt := pystr -> option (Z * pystr).

(** [x[lo-hi]]: a fixed first character, then one in a range. *)
Definition alt2 (first lo hi : codepoint) : alt := fun s =>
  match s with
  | a :: b :: rest =>
      if (N.eqb a first && in_range lo hi b)%bool
      then Some (match digit_val U a with
                 | Some v => 10 * v + ascii_digit b
                 | None => ascii_digit b      (* a leading space *)
                 end, rest)
      else None
  | _ => None
  end.

(** [[1-9]] *)
Definition alt1 : alt := fun s =>
  match s with
  | a :: rest => if in_range 49%N 57%N a then Some (ascii_digit a, rest) else None
  | _ => None
  end.

(** [[1-2]\d] *)
Definition alt_12d : alt := fun s =>
  match s with
  | a :: b :: rest =>
      if in_range 49%N 50%N a then
        match digit_val U b with
        | Some v => Some (10 * ascii_digit a + v, rest)
        | None => None
        end
      else None
  | _ => None
  end.

(** [\d\d\d\d] *)
Definition alt_dddd : alt := fun s =>
  match s with
  | a :: b :: c :: d :: rest =>
      match digit_val U a, digit_val U b, digit_val U c, digit_val U d with
      | Some x, Some y, Some z, Some w =>
          Some (1000 * x + 100 * y + 10 * z + w, rest)
      | _, _, _, _ => None
      end
  | _ => None
  end.

(** The patterns of [_strptime.TimeRE], alternatives in their order:
    %m is [1[0-2]|0[1-9]|[1-9]], %d is
    [3[0-1]|[1-2]\d|0[1-9]|[1-9]| [1-9]], %Y is [\d\d\d\d]. *)
Definition alternatives (d : directive) : list alt :=
  match d with
  | DirM => [alt2 49%N 48%N 50%N; alt2 48%N 49%N 57%N; alt1]
  | DirD => [alt2 51%N 48%N 49%N; alt_12d; alt2 48%N 49%N 57%N; alt1;
             alt2 32%N 49%N 57%N]
  | DirY => [alt_dddd]
  | Lit c => [fun s => match s with
                       | a :: rest => if N.eqb a c then Some (0, rest) else None
                       | [] => None
                       end]
  end.

Definition set_field (d : directive) (v : Z) (acc : date) : date :=
  match d with
  | DirY => mkdate v (month acc) (day acc)
  | DirM => mkdate (year acc) v (day acc)
  | DirD => mkdate (year acc) (month acc) v
  | Lit _ => acc
  end.

Fixpoint first_some {A B} (f : A -> option B) (l : list A) : option B :=
  match l with
  | [] => None
  | x :: l' => match f x with Some y => Some y | None => first_some f l' end
  end.

(** The regular-expression match, with its backtracking: the first
    alternative under which the rest of the format matches too. *)
Fixpoint match_format (fmt : list directive) (s : pystr) (acc : date)
  : option (date * pystr) :=
  match fmt with
  | [] => Some (acc, s)
  | d :: fmt' =>
      first_some
        (fun a : alt =>
           match a s with
           | Some (v, rest) => match_format fmt' rest (set_field d v acc)
           | None => None
           end)
        (alternatives d)
  end.

(** [datetime.strptime(data, fmt).date()]; [None] stands for the
    [ValueError] it raises: no match, text left over, or a date the
    calendar does not have.  Fields a format leaves out default to
    1900-01-01. *)
Definition strptime (data fmt : pystr) : option date :=
  match compile_format fmt with
  | None => None
  | Some ds =>
      match match_format ds data (mkdate 1900 1 1) with
      | Some (d, []) => if valid_date d then Some d else None
      | _ => None
      end
  end.

(** Lines 114-118: the format is chosen by the presence of a slash. *)
Definition parse_expiry (expiry_date : pystr) : option date :=
  if char_in 47%N expiry_date then strptime expiry_date (py "%m/%d/%Y")
  else strptime expiry_date (py "%Y-%m-%d").

End Strptime.

(* ================================================================== *)
(** * Values, exceptions and the monad of statements *)

(** The values the tools receive from JSON bodies and hand back. *)
#[local] Unset Elimination Schemes.
Inductive PyVal :=
| VNone
| VBool (b : bool)
| VInt (z : Z)
| VFloat (x : float)
| VStr (s : pystr)
| VList (l : list PyVal)
| VDict (d : list (pystr * PyVal)).
#[local] Set Elimination Schemes.

Definition pydict := list (pystr * PyVal).

(** [d[k]] as a lookup. *)
Fixpoint dict_get (d : pydict) (k : pystr) : option PyVal :=
  match d with
  | [] => None
  | (k', v) :: d' => if pystr_eqb k k' then Some v else dict_get d' k
  end.

(** [d[k] = v]: overwrite in place, or add at the end. *)
Fixpoint dict_set (d : pydict) (k : pystr) (v : PyVal) : pydict :=
  match d with
  | [] => [(k, v)]
  | (k', v') :: d' =>
      if pystr_eqb k k' then (k', v) :: d' else (k', v') :: dict_set d' k v
  end.

Definition has_key (d : pydict) (k : pystr) : bool :=
  match dict_get d k with Some _ => true | None => false end.

(** An instance of [Exception]: its class and [str(e)]. *)
Record Exn := mkExn { exn_class : pystr; exn_str : pystr }.

Inductive Outcome (A : Type) :=
| Ret (a : A)
| Raise (e : Exn).
Arguments Ret {A} a.
Arguments Raise {A} e.

(** A call to a collaborator outside the process: an HTTP request, the
    construction of a ticker, the request for an option chain. *)
Inductive Event :=
| EvHttpGet (url : pystr)
| EvTicker (symbol : pystr)
| EvOptionChain (symbol date_arg : pystr).

(** What a tool can change: the content of activity.log and the record of
    the calls it made. *)
Record World := mkWorld {
  log_file : pystr;
  calls : list Event
}.

Definition M (A : Type) := World -> Outcome A * World.

Definition ret {A} (a : A) : M A := fun w => (Ret a, w).
Definition raise {A} (e : Exn) : M A := fun w => (Raise e, w).

Definition bind {A B} (m : M A) (k : A -> M B) : M B :=
  fun w => match m w with
           | (Ret a, w') => k a w'
           | (Raise e, w') => (Raise e, w')
           end.

(** A pure computation that may raise. *)
Definition lift {A} (o : Outcome A) : M A := fun w => (o, w).

(** [try: x = body / except Exception as e: return handler(e)], then the
    statements [k] that follow the try block. *)
Definition try_or_return {A B} (body : M A) (handler : Exn -> M B)
  (k : A -> M B) : M B :=
  fun w => match body w with
           | (Ret a, w') => k a w'
           | (Raise e, w') => handler e w'
           end.

(** [try: body / except Exception as e: handler(e)] *)
Definition try_except {A} (body : M A) (handler : Exn -> M A) : M A :=
  fun w => match body w with
           | (Ret a, w') => (Ret a, w')
           | (Raise e, w') => handler e w'
           end.

Notation "x <- m ;; k" := (bind m (fun x => k))
  (at level 61, m at next level, right associativity).
Notation "m ;;; k" := (bind m (fun _ => k))
  (at level 61, right associativity).

(** [with open(ACTIVITY_LOG_PATH, "a") as f: f.write(text)].  [open] can
    fail (an [OSError]); the file is a text file, so [write] first encodes
    the text, and when the encoding of the file cannot hold it the
    [UnicodeEncodeError] leaves the [with] block with nothing written.
    [failure] says which exception appending a text meets before anything
    is written: [None] when it meets none.  A failure in the middle of a
    write (a full disk) is not modelled. *)
Definition append_log (failure : pystr -> option Exn) (text : pystr)
  : M unit :=
  fun w => match failure text with
           | None => (Ret tt, mkWorld (log_file w ++ text) (calls w))
           | Some e => (Raise e, w)
           end.

Definition emit (ev : Event) : M unit :=
  fun w => (Ret tt, mkWorld (log_file w) (calls w ++ [ev])).

(* ================================================================== *)
(** * The collaborators *)

(** A [requests.Response]; [json] is what [response.json()] gives. *)
Record Response := {
  status_code : Z;
  reason : pystr;
  resp_url : pystr;
  text : pystr;
  json : Outcome PyVal
}.

(** A row of an options table: the float64 columns the module reads. *)
Record Row := {
  strike : float;
  lastPrice : float;
  bid : float;
  ask : float;
  volume : float;
  openInterest : float;
  impliedVolatility : float
}.

Definition DataFrame := list Row.

(** What [ticker.option_chain(date)] returns. *)
Record OptionChain := { chain_calls : DataFrame; chain_puts : DataFrame }.

Record Env := {
  ucd : Unicode;
  (** [requests.get(url)] *)
  http_get : pystr -> Outcome Response;
  (** [str(datetime.now())] *)
  clock_now : pystr;
  (** [yf.Ticker(symbol)], which may raise *)
  yf_Ticker : pystr -> Outcome unit;
  (** [yf.Ticker(symbol).option_chain(date)] *)
  yf_option_chain : pystr -> pystr -> Outcome OptionChain;
  (** [Series.argsort()] with its default [kind], on a float64 column *)
  np_argsort : list float -> list Z;
  (** [str(x)] of a float *)
  float_str : float -> pystr;
  (** [str(v)] of a list or a dict *)
  container_str : PyVal -> pystr;
  (** what appending a text to activity.log meets before it writes:
      [None] when the file opens and its encoding (the locale's) can hold
      the text, and otherwise the exception raised, the [OSError] of
      [open] or the [UnicodeEncodeError] of [write] *)
  log_write : pystr -> option Exn
}.

(** [response.raise_for_status()] of requests. *)
Definition raise_for_status (r : Response) : Outcome unit :=
  if (400 <=? status_code r) && (status_code r <? 500) then
    Raise (mkExn (py "HTTPError")
             (str_of_Z (status_code r) ++ py " Client Error: " ++ reason r
                ++ py " for url: " ++ resp_url r))
  else if (500 <=? status_code r) && (status_code r <? 600) then
    Raise (mkExn (py "HTTPError")
             (str_of_Z (status_code r) ++ py " Server Error: " ++ reason r
                ++ py " for url: " ++ resp_url r))
  else Ret tt.

(** The name of a value's type, as an error message quotes it. *)
Definition type_name (v : PyVal) : pystr :=
  match v with
  | VNone => py "NoneType"
  | VBool _ => py "bool"
  | VInt _ => py "int"
  | VFloat _ => py "float"
  | VStr _ => py "str"
  | VList _ => py "list"
  | VDict _ => py "dict"
  end.

(** [v[key]] with a string key.  The module's keys are words of letters,
    for which [str] of the [KeyError] is the key between single quotes. *)
Definition getitem (v : PyVal) (key : pystr) : Outcome PyVal :=
  match v with
  | VDict d =>
      match dict_get d key with
      | Some x => Ret x
      | None => Raise (mkExn (py "KeyError") (py "'" ++ key ++ py "'"))
      end
  | VList _ =>
      Raise (mkExn (py "TypeError")
               (py "list indices must be integers or slices, not str"))
  | VStr _ =>
      Raise (mkExn (py "TypeError")
               (py "string indices must be integers, not 'str'"))
  | _ =>
      Raise (mkExn (py "TypeError")
               (py "'" ++ type_name v ++ py "' object is not subscriptable"))
  end.

(** [int(x)] of a float: truncation; infinities and NaN raise. *)
Definition py_int (x : float) : Outcome Z :=
  match x with
  | S754_zero _ => Ret 0
  | S754_finite s m e =>
      let a := if 0 <=? e then Z.pos m * 2 ^ e else Z.pos m / 2 ^ (- e) in
      Ret (if s then - a else a)
  | S754_infinity _ =>
      Raise (mkExn (py "OverflowError")
               (py "cannot convert float infinity to integer"))
  | S754_nan =>
      Raise (mkExn (py "ValueError")
               (py "cannot convert float NaN to integer"))
  end.

(** [df.iloc[i]] by position: negative positions count from the end, a
    position outside the frame raises. *)
Definition iloc_row (df : DataFrame) (i : Z) : Outcome Row :=
  let n := Z.of_nat (List.length df) in
  let j := if i <? 0 then n + i else i in
  if (0 <=? j) && (j <? n) then
    match nth_error df (Z.to_nat j) with
    | Some r => Ret r
    | None => Raise (mkExn (py "IndexError")
                       (py "positional indexers are out-of-bounds"))
    end
  else Raise (mkExn (py "IndexError")
                (py "positional indexers are out-of-bounds")).

(** [df.iloc[positions]] *)
Fixpoint iloc_rows (df : DataFrame) (positions : list Z)
  : Outcome (list Row) :=
  match positions with
  | [] => Ret []
  | i :: rest =>
      match iloc_row df i with
      | Raise e => Raise e
      | Ret r =>
          match iloc_rows df rest with
          | Raise e => Raise e
          | Ret rs => Ret (r :: rs)
          end
      end
  end.

(* ================================================================== *)
(** * The tools *)

Definition newline : pystr := [10%N].

Definition error_dict (message : pystr) : PyVal :=
  VDict [(py "error", VStr message)].

Definition is_none (v : PyVal) : bool :=
  match v with VNone => true | _ => false end.

(** Line 137: [abs(options_df['strike'] - strike) < 0.01], row by row. *)
Definition within_tolerance (k : float) (r : Row) : bool :=
  fltb (fabs (fsub (strike r) k)) tolerance.

(** [options_df[mask]] *)
Definition matching_rows (options_df : DataFrame) (k : float) : DataFrame :=
  filter (within_tolerance k) options_df.

(** [(options_df['strike'] - strike).abs()] *)
Definition distances (options_df : DataFrame) (k : float) : list float :=
  map (fun r => fabs (fsub (strike r) k)) options_df.

(** [float(x) if pd.notna(x) else None] *)
Definition float_or_none (x : float) : PyVal :=
  if notna x then VFloat x else VNone.

(** [int(x) if pd.notna(x) else 0] *)
Definition int_or_zero (x : float) : Outcome PyVal :=
  if notna x then
    match py_int x with
    | Ret z => Ret (VInt z)
    | Raise e => Raise e
    end
  else Ret (VInt 0).

(** [(b + a) / 2] on the values of the result dict. *)
Definition mean_of (b a : PyVal) : Outcome PyVal :=
  match b, a with
  | VFloat x, VFloat y => Ret (VFloat (fdiv (fadd x y) two))
  | _, _ => Raise (mkExn (py "TypeError") (py "unsupported operand type(s)"))
  end.

(** The f-strings of lines 35 and 69. *)
Definition price_url (symbol : pystr) : pystr :=
  py "https://api.binance.us/api/v3/ticker/price?symbol=" ++ symbol.

Definition stats_url (symbol : pystr) : pystr :=
  py "https://data-api.binance.vision/api/v3/ticker/24hr?symbol=" ++ symbol.

(** The status codes [raise_for_status] raises on. *)
Definition http_error_status (status : Z) : bool :=
  (400 <=? status) && (status <? 600).

Section Tools.
Variable E : Env.

(** [str(v)], as an f-string renders a value. *)
Definition py_str (v : PyVal) : pystr :=
  match v with
  | VStr s => s
  | VInt z => str_of_Z z
  | VNone => py "None"
  | VBool true => py "True"
  | VBool false => py "False"
  | VFloat x => float_str E x
  | VList _ | VDict _ => container_str E v
  end.

Definition requests_get (url : pystr) : M Response :=
  emit (EvHttpGet url) ;;; lift (http_get E url).

(** Lines 23-52.  The statements after the [return] of line 39 cannot
    run and have no counterpart here. *)
Definition get_price (symbol : pystr) : M PyVal :=
  let symbol := get_symbol_from_name (ucd E) symbol in
  let url := price_url symbol in
  response <- requests_get url ;;
  if negb (status_code response =? 200) then
    ret (error_dict (py "Failed to fetch price for symbol " ++ symbol
                       ++ py ". Status code: "
                       ++ str_of_Z (status_code response)))
  else
    body <- lift (json response) ;;
    price <- lift (getitem body (py "price")) ;;
    append_log (log_write E)
      (py "Successfully fetched price for " ++ symbol ++ py ": "
         ++ py_str price ++ py ", Current Time: " ++ clock_now E
         ++ newline) ;;;
    ret (VStr (py "The current price of " ++ symbol ++ py " is "
                 ++ py_str price ++ py ".")).

(** Lines 57-72. *)
Definition get_price_price_change (symbol : pystr) : M PyVal :=
  let symbol := get_symbol_from_name (ucd E) symbol in
  let url := stats_url symbol in
  response <- requests_get url ;;
  lift (raise_for_status response) ;;;
  lift (json response).

(** Lines 82-83. *)
Definition get_crypto_price (symbol : pystr) : M PyVal := get_price symbol.

Definition Ticker (symbol : pystr) : M pystr :=
  emit (EvTicker symbol) ;;;
  lift (yf_Ticker E symbol) ;;;
  ret symbol.

Definition option_chain (ticker date_arg : pystr) : M OptionChain :=
  emit (EvOptionChain ticker date_arg) ;;;
  lift (yf_option_chain E ticker date_arg).

(** Line 141: the strikes at the first five positions of the argsort of
    the distances. *)
Definition closest_strikes (options_df : DataFrame) (k : float)
  : Outcome (list float) :=
  match iloc_rows options_df
          (firstn 5 (np_argsort E (distances options_df k))) with
  | Ret rows => Ret (map strike rows)
  | Raise e => Raise e
  end.

(** Lines 142-148. *)
Definition not_found (k : float) (exp_date : date) (option_type : pystr)
  (closest : list float) : PyVal :=
  VDict [ (py "error", VStr (py "No option found with strike "
                               ++ float_str E k));
          (py "available_strikes_nearby", VList (map VFloat closest));
          (py "requested_strike", VFloat k);
          (py "expiry_date", VStr (strftime_iso exp_date));
          (py "option_type", VStr option_type) ].

(** Lines 154-165; the two [int] casts are the entries that can raise. *)
Definition build_result (symbol option_type : pystr) (exp_date : date)
  (option : Row) : Outcome pydict :=
  match int_or_zero (volume option) with
  | Raise e => Raise e
  | Ret vol =>
      match int_or_zero (openInterest option) with
      | Raise e => Raise e
      | Ret oi =>
          Ret [ (py "symbol", VStr (py_upper (ucd E) symbol));
                (py "strike", VFloat (strike option));
                (py "expiry_date", VStr (strftime_iso exp_date));
                (py "option_type", VStr (py_lower (ucd E) option_type));
                (py "last_price", float_or_none (lastPrice option));
                (py "bid", float_or_none (bid option));
                (py "ask", float_or_none (ask option));
                (py "volume", vol);
                (py "open_interest", oi);
                (py "implied_volatility",
                  float_or_none (impliedVolatility option)) ]
      end
  end.

(** Lines 168-171. *)
Definition with_mid_price (result : pydict) : Outcome PyVal :=
  match getitem (VDict result) (py "bid") with
  | Raise e => Raise e
  | Ret b =>
      if is_none b then Ret (VDict result)
      else
        match getitem (VDict result) (py "ask") with
        | Raise e => Raise e
        | Ret a =>
            if is_none a then Ret (VDict result)
            else
              match mean_of b a with
              | Raise e => Raise e
              | Ret m => Ret (VDict (dict_set result (py "mid_price") m))
              end
        end
  end.

(** Line 133: anything but "call", in any casing, selects the puts. *)
Definition select_table (option_type : pystr) (opt_chain : OptionChain)
  : DataFrame :=
  if pystr_eqb (py_lower (ucd E) option_type) (py "call")
  then chain_calls opt_chain else chain_puts opt_chain.

(** Lines 154-171, for the row [option]. *)
Definition premium_of_row (symbol option_type : pystr) (exp_date : date)
  (option : Row) : Outcome PyVal :=
  match build_result symbol option_type exp_date option with
  | Ret result => with_mid_price result
  | Raise e => Raise e
  end.

(** Lines 133-171: no call leaves the process from here on. *)
Definition lookup_premium (symbol : pystr) (strike : float)
  (exp_date : date) (option_type : pystr) (opt_chain : OptionChain)
  : Outcome PyVal :=
  let options_df := select_table option_type opt_chain in
  let matching_options := matching_rows options_df strike in
  match matching_options with
  | [] =>
      match closest_strikes options_df strike with
      | Ret closest => Ret (not_found strike exp_date option_type closest)
      | Raise e => Raise e
      end
  | option :: _ => premium_of_row symbol option_type exp_date option
  end.

(** Lines 111-171: the statements inside the outer [try]. *)
Definition get_option_premium_body (symbol : pystr) (strike : float)
  (expiry_date option_type : pystr) : M PyVal :=
  match parse_expiry (ucd E) expiry_date with
  | None =>
      ret (error_dict (py "Invalid date format: " ++ expiry_date
                         ++ py ". Use 'YYYY-MM-DD' or 'MM/DD/YYYY'"))
  | Some exp_date =>
      ticker <- Ticker (py_upper (ucd E) symbol) ;;
      try_or_return
        (option_chain ticker (strftime_iso exp_date))
        (fun e =>
           ret (error_dict
                  (py "Could not fetch options chain: " ++ exn_str e
                     ++ py ". Make sure the expiry date is valid and the symbol has options available.")))
        (fun opt_chain =>
           lift (lookup_premium symbol strike exp_date option_type
                   opt_chain))
  end.

(** Lines 92-174. *)
Definition get_option_premium (symbol : pystr) (strike : float)
  (expiry_date option_type : pystr) : M PyVal :=
  try_except
    (get_option_premium_body symbol strike expiry_date option_type)
    (fun e =>
       ret (error_dict (py "Error fetching option premium: " ++ exn_str e))).

End Tools.

(** The world after the constructor of the ticker, and after the request
    for the chain. *)
Definition after_ticker (E : Env) (symbol : pystr) (w : World) : World :=
  mkWorld (log_file w) (calls w ++ [EvTicker (py_upper (ucd E) symbol)]).

Definition after_chain (E : Env) (symbol : pystr) (d : date) (w : World)
  : World :=
  mkWorld (log_file w)
    ((calls w ++ [EvTicker (py_upper (ucd E) symbol)])
       ++ [EvOptionChain (py_upper (ucd E) symbol) (strftime_iso d)]).

(* ================================================================== *)
(** * What the specification says, in its own words *)

(** The contract of numpy's argsort on the keys [keys]: the answer [p]
    lists every position of the column once, and along [p] the keys
    ascend.  The default [kind] is quicksort, which numpy documents as not
    stable: among equal keys any order meets the contract. *)
Definition key_at (keys : list float) (i : Z) : float :=
  nth (Z.to_nat i) keys S754_nan.

Fixpoint ascending (keys : list float) (p : list Z) : bool :=
  match p with
  | [] => true
  | i :: p' =>
      forallb (fun j => np_le (key_at keys i) (key_at keys j)) p'
      && ascending keys p'
  end.

Definition positions (n : nat) : list Z := map Z.of_nat (seq 0 n).

Definition argsort_contract (keys : list float) (p : list Z) : bool :=
  (List.length p =? List.length keys)%nat
  && forallb (fun i => existsb (Z.eqb i) p) (positions (List.length keys))
  && ascending keys p.

(** The distance of a row's strike to the requested one. *)
Definition distance (k : float) (r : Row) : float := fabs (fsub (strike r) k).

(** Rows by ascending distance, rows at the same distance in the order of
    the table: insertion from the right, each row put before the first
    row strictly farther. *)
Fixpoint insert_by_distance (k : float) (r : Row) (l : list Row) : list Row :=
  match l with
  | [] => [r]
  | x :: l' =>
      if np_le (distance k r) (distance k x) then r :: l
      else x :: insert_by_distance k r l'
  end.

Definition sort_by_distance (k : float) (df : DataFrame) : list Row :=
  fold_right (insert_by_distance k) [] df.

(** "the 5 strikes in the table with smallest absolute distance to the
    requested strike (ties broken by original table order)" *)
Definition nearest_in_table_order (df : DataFrame) (k : float) : list float :=
  firstn 5 (map strike (sort_by_distance k df)).

(** "a row whose strike is within 0.01 absolute tolerance ... the first
    matching row" *)
Definition first_within (df : DataFrame) (k : float) : option Row :=
  find (within_tolerance k) df.

(** The binary64 number nearest to one hundredth, by its bits:
    5764607523034235 / 2^59. *)
Definition hundredth : float := S754_finite false 5764607523034235 (-59).

(** "within 0.01 absolute tolerance of the requested strike", on floats:
    the binary64 difference of the two strikes, sign dropped, compares
    below [hundredth]. *)
Definition strike_within_hundredth (requested : float) (r : Row) : bool :=
  match SFcompare (SFabs (SFsub 53 1024 (strike r) requested)) hundredth with
  | Some Lt => true
  | _ => false
  end.

(** The absolute value of a float is below 1/100, in exact arithmetic:
    [100 * m * 2^e < 1] for the float [m * 2^e]. *)
Definition below_one_hundredth (x : float) : bool :=
  match x with
  | S754_zero _ => true
  | S754_finite _ m e =>
      if 0 <=? e then false else 100 * Z.pos m <? 2 ^ (- e)
  | _ => false
  end.

(** How far the positive float [m * 2^e] is from 1/100, counted in
    hundredths of its last binary place: [|100 * m - 2^(-e)|].  Two
    neighbouring floats are 100 of these apart, so a float that is off by
    50 or less is the nearest one. *)
Definition hundredths_off (x : float) : option Z :=
  match x with
  | S754_finite false m e => Some (Z.abs (100 * Z.pos m - 2 ^ (- e)))
  | _ => None
  end.

(* ================================================================== *)
(** * Sample collaborators *)

(** An argsort by insertion.  With [strict] the keys equal to a new one
    stay before it (a stable sort); without, the new one goes before them
    (ties come out in reverse).  Both meet the contract. *)
Fixpoint insert_key (strict : bool) (x : Z * float) (l : list (Z * float))
  : list (Z * float) :=
  match l with
  | [] => [x]
  | y :: l' =>
      if (if strict then fltb (snd x) (snd y) else fleb (snd x) (snd y))
      then x :: l
      else y :: insert_key strict x l'
  end.

Definition argsort_insertion (strict : bool) (keys : list float) : list Z :=
  map fst
    (fold_left (fun acc x => insert_key strict x acc)
       (combine (positions (List.length keys)) keys) []).

(** [str(x)] for the floats with no fractional part below 2^53, the only
    ones the samples print: the integer, then ".0". *)
Definition float_str_integral (x : float) : pystr :=
  match py_int x with
  | Ret z => str_of_Z z ++ py ".0"
  | Raise _ => py "nan"
  end.

Definition row_of (s b a : float) : Row := {|
  strike := s; lastPrice := b; bid := b; ask := a;
  volume := float_of_Z 10; openInterest := float_of_Z 20;
  impliedVolatility := float_of_decimal 5 10
|}.

(** A chain with the strikes 95, 100 and 105 on the call side and 95, 105
    and 110 on the put side. *)
Definition sample_chain : OptionChain := {|
  chain_calls :=
    [ row_of (float_of_Z 95) (float_of_decimal 65 10) (float_of_decimal 67 10);
      row_of (float_of_Z 100) (float_of_decimal 15 10) (float_of_decimal 25 10);
      row_of (float_of_Z 105) S754_nan (float_of_decimal 5 10) ];
  chain_puts :=
    [ row_of (float_of_Z 95) (float_of_Z 1) (float_of_Z 2);
      row_of (float_of_Z 105) (float_of_Z 6) (float_of_Z 7);
      row_of (float_of_Z 110) (float_of_Z 11) (float_of_Z 12) ]
|}.

(** A chain whose only call has an infinite volume. *)
Definition overflow_chain : OptionChain := {|
  chain_calls :=
    [ {| strike := float_of_Z 100; lastPrice := float_of_Z 1;
         bid := float_of_Z 1; ask := float_of_Z 2;
         volume := S754_infinity false; openInterest := float_of_Z 20;
         impliedVolatility := float_of_decimal 5 10 |} ];
  chain_puts := []
|}.

(** What yfinance raises for a date it has no chain for. *)
Definition no_such_expiry : Exn :=
  mkExn (py "ValueError") (py "Expiration `2025-11-07` cannot be found.").

(** Appending to a log file that opens and is encoded as UTF-8: every
    code point goes through but the surrogates U+D800 to U+DFFF.  The
    message names the first run of them, as the codec does. *)
Definition is_surrogate (c : codepoint) : bool :=
  (N.leb 55296 c && N.leb c 57343)%bool.

Definition hex_digit (n : N) : codepoint :=
  if N.ltb n 10 then (48 + n)%N else (87 + n)%N.

Fixpoint surrogate_run (text : pystr) : Z :=
  match text with
  | c :: rest => if is_surrogate c then 1 + surrogate_run rest else 0
  | [] => 0
  end.

Fixpoint first_surrogate (text : pystr) (i : Z)
  : option (Z * codepoint * Z) :=
  match text with
  | [] => None
  | c :: rest =>
      if is_surrogate c then Some (i, c, 1 + surrogate_run rest)
      else first_surrogate rest (i + 1)
  end.

Definition utf8_encode (text : pystr) : option Exn :=
  match first_surrogate text 0 with
  | None => None
  | Some (i, c, n) =>
      Some (mkExn (py "UnicodeEncodeError")
              (if n =? 1 then
                 py "'utf-8' codec can't encode character '\ud"
                   ++ [hex_digit (N.modulo (N.div c 256) 16);
                       hex_digit (N.modulo (N.div c 16) 16);
                       hex_digit (N.modulo c 16)]
                   ++ py "' in position " ++ str_of_Z i
                   ++ py ": surrogates not allowed"
               else
                 py "'utf-8' codec can't encode characters in position "
                   ++ str_of_Z i ++ py "-" ++ str_of_Z (i + n - 1)
                   ++ py ": surrogates not allowed"))
  end.

Definition price_body : PyVal := VDict [(py "price", VStr (py "65000.12"))].

Definition response_of (status : Z) (body : Outcome PyVal) : Response := {|
  status_code := status; reason := py ""; resp_url := py "";
  text := py ""; json := body
|}.

(** A world in which the endpoints answer [status] with the price body,
    the provider answers [chain], and argsort is [argsort]. *)
Definition sample_env (status : Z) (chain : Outcome OptionChain)
  (argsort : list float -> list Z) : Env := {|
  ucd := ucd_excerpt;
  http_get := fun _ => Ret (response_of status (Ret price_body));
  clock_now := py "2025-11-04 09:56:00.000000";
  yf_Ticker := fun _ => Ret tt;
  yf_option_chain := fun _ _ => chain;
  np_argsort := argsort;
  float_str := float_str_integral;
  container_str := fun _ => py "{...}";
  log_write := utf8_encode
|}.

(** numpy's argsort of kind quicksort on a float64 column, as
    npysort/quicksort.cpp writes it ([aquicksort_]): an array of positions
    sorted in place, a range of more than 17 positions split around the
    median of its first, middle and last keys, a shorter range sorted by
    insertion.  The heap sort that numpy turns to after [2 * log2 n]
    nested splits is left out: the ranges here are sorted as if that
    limit were never met. *)

(** The order of the sort on float64: NaN after every number. *)
Definition np_lt (a b : float) : bool :=
  fltb a b || (is_nan b && negb (is_nan a)).

Definition tosort_at (tosort : list Z) (i : nat) : Z := nth i tosort 0.

Fixpoint tosort_put (tosort : list Z) (i : nat) (x : Z) : list Z :=
  match tosort, i with
  | [], _ => []
  | _ :: rest, O => x :: rest
  | y :: rest, S i' => y :: tosort_put rest i' x
  end.

Definition intp_swap (tosort : list Z) (i j : nat) : list Z :=
  tosort_put (tosort_put tosort i (tosort_at tosort j)) j (tosort_at tosort i).

(** [do ++pi; while (less(v[*pi], vp));] *)
Fixpoint scan_up (fuel : nat) (v : list float) (tosort : list Z)
  (vp : float) (pi : nat) : nat :=
  match fuel with
  | O => S pi
  | S fuel' =>
      if np_lt (key_at v (tosort_at tosort (S pi))) vp
      then scan_up fuel' v tosort vp (S pi)
      else S pi
  end.

(** [do --pj; while (less(vp, v[*pj]));] *)
Fixpoint scan_down (fuel : nat) (v : list float) (tosort : list Z)
  (vp : float) (pj : nat) : nat :=
  match fuel with
  | O => Nat.pred pj
  | S fuel' =>
      if np_lt vp (key_at v (tosort_at tosort (Nat.pred pj)))
      then scan_down fuel' v tosort vp (Nat.pred pj)
      else Nat.pred pj
  end.

(** The loop of the split: the two scans, a swap of what they stop at,
    until they meet; it answers with the array and the meeting place. *)
Fixpoint split_loop (fuel : nat) (v : list float) (tosort : list Z)
  (vp : float) (pi pj : nat) : list Z * nat :=
  match fuel with
  | O => (tosort, pi)
  | S fuel' =>
      let pi' := scan_up (List.length tosort) v tosort vp pi in
      let pj' := scan_down (List.length tosort) v tosort vp pj in
      if (pj' <=? pi')%nat then (tosort, pi')
      else split_loop fuel' v (intp_swap tosort pi' pj') vp pi' pj'
  end.

(** The median of three, moved next to the end, and the split around
    it. *)
Definition split_range (v : list float) (tosort : list Z) (pl pr : nat)
  : list Z * nat :=
  let less := fun t i j =>
    np_lt (key_at v (tosort_at t i)) (key_at v (tosort_at t j)) in
  let pm := (pl + Nat.div2 (pr - pl))%nat in
  let t1 := if less tosort pm pl then intp_swap tosort pm pl else tosort in
  let t2 := if less t1 pr pm then intp_swap t1 pr pm else t1 in
  let t3 := if less t2 pm pl then intp_swap t2 pm pl else t2 in
  let vp := key_at v (tosort_at t3 pm) in
  let t4 := intp_swap t3 pm (pr - 1) in
  let '(t5, pi) := split_loop (List.length tosort) v t4 vp pl (pr - 1) in
  (intp_swap t5 pi (pr - 1), pi).

(** The inner loop of the insertion sort: the position [vi] moves down
    past the positions with a greater key. *)
Fixpoint insert_down (fuel : nat) (v : list float) (tosort : list Z)
  (pl : nat) (vi : Z) (pj : nat) : list Z :=
  match fuel with
  | O => tosort_put tosort pj vi
  | S fuel' =>
      if (pl <? pj)%nat
         && np_lt (key_at v vi) (key_at v (tosort_at tosort (Nat.pred pj)))
      then insert_down fuel' v
             (tosort_put tosort pj (tosort_at tosort (Nat.pred pj)))
             pl vi (Nat.pred pj)
      else tosort_put tosort pj vi
  end.

Definition insertion_sort (v : list float) (tosort : list Z) (pl pr : nat)
  : list Z :=
  fold_left
    (fun t pi => insert_down pi v t pl (tosort_at t pi) pi)
    (seq (S pl) (pr - pl)) tosort.

Fixpoint aquicksort_range (fuel : nat) (v : list float) (tosort : list Z)
  (pl pr : nat) : list Z :=
  match fuel with
  | O => insertion_sort v tosort pl pr
  | S fuel' =>
      if (16 <? pr - pl)%nat then
        let '(t, pi) := split_range v tosort pl pr in
        aquicksort_range fuel' v
          (aquicksort_range fuel' v t pl (pi - 1)) (S pi) pr
      else insertion_sort v tosort pl pr
  end.

Definition aquicksort (v : list float) : list Z :=
  aquicksort_range (List.length v) v (positions (List.length v))
    0 (List.length v - 1).

(** [str(x)] for the positive floats that are a multiple of 1/2, below
    2^52: the integer part, then ".0" or ".5". *)
Definition float_str_halves (x : float) : pystr :=
  match py_int (fadd x x) with
  | Ret z => str_of_Z (z / 2) ++ (if Z.even z then py ".0" else py ".5")
  | Raise _ => py "nan"
  end.

(** A chain whose calls have the 21 strikes 90, 91, ..., 110. *)
Definition strikes_90_to_110 : OptionChain := {|
  chain_calls :=
    map (fun n => row_of (float_of_Z (Z.of_nat n)) (float_of_Z 1)
                    (float_of_Z 2))
        (seq 90 21);
  chain_puts := []
|}.

(** A world in which the provider answers with that chain and argsort is
    [argsort]. *)
Definition wide_env (argsort : list float -> list Z) : Env := {|
  ucd := ucd_excerpt;
  http_get := fun _ => Ret (response_of 200 (Ret price_body));
  clock_now := py "2025-11-04 09:56:00.000000";
  yf_Ticker := fun _ => Ret tt;
  yf_option_chain := fun _ _ => Ret strikes_90_to_110;
  np_argsort := argsort;
  float_str := float_str_halves;
  container_str := fun _ => py "{...}";
  log_write := utf8_encode
|}.

Definition empty_world : World := mkWorld [] [].

(** The row a position of the frame stands for ([r0] outside the frame). *)
Definition row_at (df : DataFrame) (r0 : Row) (i : Z) : Row :=
  nth (Z.to_nat i) df r0.

(** "ascending distance" between two rows. *)
Definition not_farther (k : float) (a b : Row) : Prop :=
  np_le (distance k a) (distance k b) = true.

(* ================================================================== *)
(** * Vocabulary of the further properties *)

(** The world after the one request [get_price] or
    [get_price_price_change] makes. *)
Definition after_request (url : pystr) (w : World) : World :=
  mkWorld (log_file w) (calls w ++ [EvHttpGet url]).

(** The text line 50 writes and the sentence line 52 returns, for the
    normalized symbol and the price as [str] renders it. *)
Definition success_line (E : Env) (symbol : pystr) (price : PyVal) : pystr :=
  py "Successfully fetched price for " ++ symbol ++ py ": "
    ++ py_str E price ++ py ", Current Time: " ++ clock_now E ++ newline.

Definition price_sentence (E : Env) (symbol : pystr) (price : PyVal)
  : pystr :=
  py "The current price of " ++ symbol ++ py " is " ++ py_str E price
    ++ py ".".

(** An environment whose endpoints give [answer] to every request. *)
Definition endpoint_env (answer : Outcome Response) : Env := {|
  ucd := ucd_excerpt;
  http_get := fun _ => answer;
  clock_now := py "2025-11-04 09:56:00.000000";
  yf_Ticker := fun _ => Ret tt;
  yf_option_chain := fun _ _ => Ret sample_chain;
  np_argsort := argsort_insertion true;
  float_str := float_str_integral;
  container_str := fun _ => py "{...}";
  log_write := utf8_encode
|}.

(** A month or a day as a date string may spell it: two digits, or as few
    as it takes. *)
Definition month_or_day (padded : bool) (z : Z) : pystr :=
  if padded then pad2 z else str_of_Z z.

(** The two spellings the tool reads: YYYY-MM-DD and MM/DD/YYYY. *)
Definition iso_text (padded : bool) (d : date) : pystr :=
  str_of_Z (year d) ++ 45%N :: month_or_day padded (month d)
    ++ 45%N :: month_or_day padded (day d).

Definition us_text (padded : bool) (d : date) : pystr :=
  month_or_day padded (month d) ++ 47%N :: month_or_day padded (day d)
    ++ 47%N :: str_of_Z (year d).

(** [str(y)] is four ASCII digits that spell [y]. *)
Definition four_digits (y : Z) : bool :=
  match str_of_Z y with
  | [a; b; c; d] =>
      in_range 48%N 57%N a && in_range 48%N 57%N b
      && in_range 48%N 57%N c && in_range 48%N 57%N d
      && (1000 * ascii_digit a + 100 * ascii_digit b
          + 10 * ascii_digit c + ascii_digit d =? y)
  | _ => false
  end.

(** The keys of a contract, in the order of lines 154-165. *)
Definition contract_keys : list pystr :=
  [ py "symbol"; py "strike"; py "expiry_date"; py "option_type";
    py "last_price"; py "bid"; py "ask"; py "volume"; py "open_interest";
    py "implied_volatility" ].

Definition is_lower_letter (c : codepoint) : bool := in_range 97%N 122%N c.

(** A float that is no number to compare with: NaN or an infinity. *)
Definition not_finite (x : float) : bool :=
  match x with
  | S754_nan | S754_infinity _ => true
  | _ => false
  end.

(* ================================================================== *)
(** * Strings: lemmas *)

Lemma pystr_eqb_eq (s t : pystr) : pystr_eqb s t = true <-> s = t.
Proof.
  unfold pystr_eqb. destruct (list_eq_dec N.eq_dec s t); split; congruence.
Qed.

Lemma pystr_eqb_refl (s : pystr) : pystr_eqb s s = true.
Proof. now apply pystr_eqb_eq. Qed.

Lemma ascii_lower_upper (c : codepoint) :
  ascii_lower (ascii_upper c) = ascii_lower c.
Proof.
  unfold ascii_lower, ascii_upper.
  destruct (N.leb_spec 97 c), (N.leb_spec c 122); simpl;
    repeat match goal with
           | |- context [N.leb ?a ?b] => destruct (N.leb_spec a b); simpl
           end; lia.
Qed.

Lemma ascii_upper_idem (c : codepoint) :
  ascii_upper (ascii_upper c) = ascii_upper c.
Proof.
  unfold ascii_upper.
  destruct (N.leb_spec 97 c), (N.leb_spec c 122); simpl;
    repeat match goal with
           | |- context [N.leb ?a ?b] => destruct (N.leb_spec a b); simpl
           end; lia.
Qed.

Lemma ascii_upper_lt (c : codepoint) : (c < 128 -> ascii_upper c < 128)%N.
Proof.
  unfold ascii_upper.
  destruct (N.leb_spec 97 c), (N.leb_spec c 122); simpl; lia.
Qed.

Section StringLemmas.
Variable U : Unicode.

Lemma lower_from_ascii (whole s : pystr) (i : nat) :
  is_ascii s = true -> lower_from U whole i s = map ascii_lower s.
Proof.
  revert i. induction s as [|c s IH]; intros i H; simpl in *.
  - reflexivity.
  - apply andb_prop in H as [Hc Hs]. rewrite Hc. simpl.
    now rewrite IH.
Qed.

Lemma py_lower_ascii (s : pystr) :
  is_ascii s = true -> py_lower U s = map ascii_lower s.
Proof. apply lower_from_ascii. Qed.

Lemma py_upper_ascii (s : pystr) :
  is_ascii s = true -> py_upper U s = map ascii_upper s.
Proof.
  unfold py_upper. induction s as [|c s IH]; intros H; simpl in *.
  - reflexivity.
  - apply andb_prop in H as [Hc Hs]. rewrite Hc. simpl.
    now rewrite IH.
Qed.

Lemma is_ascii_upper (s : pystr) :
  is_ascii s = true -> is_ascii (map ascii_upper s) = true.
Proof.
  induction s as [|c s IH]; intros H; simpl in *.
  - reflexivity.
  - apply andb_prop in H as [Hc Hs]. rewrite IH by assumption.
    apply N.ltb_lt in Hc. apply ascii_upper_lt in Hc.
    apply N.ltb_lt in Hc. now rewrite Hc.
Qed.

(** A casing of [t] lowers to the lowering of [t]. *)
Lemma lower_from_casing (whole s t : pystr) (i : nat) :
  casing_of s t = true -> lower_from U whole i s = map ascii_lower t.
Proof.
  revert t i. induction s as [|c s IH]; intros [|d t] i H; simpl in *;
    try discriminate.
  - reflexivity.
  - apply andb_prop in H as [H Hs]. apply andb_prop in H as [Hc Hcd].
    rewrite Hc. apply N.eqb_eq in Hcd. simpl. rewrite Hcd.
    now rewrite (IH t).
Qed.

Lemma py_lower_casing (s t : pystr) :
  casing_of s t = true -> py_lower U s = map ascii_lower t.
Proof. apply lower_from_casing. Qed.

End StringLemmas.

(* ================================================================== *)
(** * The symbol normalizer: theorems *)

(** C6.  [get_symbol_from_name] is a function on all strings (it has no
    error result).  Every casing of "bitcoin" or "btc" goes to "BTCUSDT",
    every casing of "ethereum" or "eth" to "ETHUSDT"; a string whose
    lowercase form is none of the four aliases goes to its uppercase
    form, for instance "sol" to "SOL". *)
Theorem get_symbol_from_name_spec (U : Unicode) :
  (forall name,
      casing_of name (py "bitcoin") || casing_of name (py "btc") = true ->
      get_symbol_from_name U name = py "BTCUSDT") /\
  (forall name,
      casing_of name (py "ethereum") || casing_of name (py "eth") = true ->
      get_symbol_from_name U name = py "ETHUSDT") /\
  (forall name,
      str_in_list (py_lower U name)
        [py "bitcoin"; py "btc"; py "ethereum"; py "eth"] = false ->
      get_symbol_from_name U name = py_upper U name) /\
  get_symbol_from_name U (py "btc") = py "BTCUSDT" /\
  get_symbol_from_name U (py "Bitcoin") = py "BTCUSDT" /\
  get_symbol_from_name U (py "eth") = py "ETHUSDT" /\
  get_symbol_from_name U (py "sol") = py "SOL".
Proof.
  repeat split; try reflexivity.
  - intros name H. unfold get_symbol_from_name.
    apply orb_prop in H as [H|H];
      rewrite (py_lower_casing U _ _ H); reflexivity.
  - intros name H. unfold get_symbol_from_name.
    apply orb_prop in H as [H|H];
      rewrite (py_lower_casing U _ _ H); reflexivity.
  - intros name H. unfold get_symbol_from_name, str_in_list in *.
    simpl in H. simpl.
    repeat (apply orb_false_elim in H as [? H]).
    repeat match goal with
           | Hx : pystr_eqb _ _ = false |- _ => rewrite Hx; clear Hx
           end.
    reflexivity.
Qed.

Lemma get_symbol_from_name_spec_witness :
  get_symbol_from_name ucd_excerpt (py "BiTcOiN") = py "BTCUSDT" /\
  get_symbol_from_name ucd_excerpt (py "EtH") = py "ETHUSDT" /\
  get_symbol_from_name ucd_excerpt (py "doge") = py "DOGE".
Proof.
  split; [|split].
  - apply (proj1 (get_symbol_from_name_spec ucd_excerpt)). reflexivity.
  - apply (proj1 (proj2 (get_symbol_from_name_spec ucd_excerpt))).
    reflexivity.
  - apply (proj1 (proj2 (proj2 (get_symbol_from_name_spec ucd_excerpt)))).
    reflexivity.
Defined.

(** C10, as the code has it: on a string of ASCII characters the
    normalizer is idempotent. *)
Theorem get_symbol_from_name_idempotent_ascii (U : Unicode) (s : pystr) :
  is_ascii s = true ->
  get_symbol_from_name U (get_symbol_from_name U s)
  = get_symbol_from_name U s.
Proof.
  intros Hs. unfold get_symbol_from_name at 2 3.
  destruct (str_in_list (py_lower U s) [py "bitcoin"; py "btc"]) eqn:Hb.
  - reflexivity.
  - destruct (str_in_list (py_lower U s) [py "ethereum"; py "eth"]) eqn:He.
    + reflexivity.
    + unfold get_symbol_from_name.
      rewrite (py_upper_ascii U s Hs).
      pose proof (is_ascii_upper s Hs) as Hu.
      rewrite (py_lower_ascii U _ Hu), (py_upper_ascii U _ Hu).
      rewrite !map_map.
      rewrite (map_ext _ _ ascii_lower_upper), (map_ext _ _ ascii_upper_idem).
      rewrite <- (py_lower_ascii U s Hs), Hb, He. reflexivity.
Qed.

Lemma get_symbol_from_name_idempotent_ascii_witness :
  get_symbol_from_name ucd_excerpt (get_symbol_from_name ucd_excerpt (py "sol"))
  = get_symbol_from_name ucd_excerpt (py "sol").
Proof.
  apply (get_symbol_from_name_idempotent_ascii ucd_excerpt (py "sol")).
  reflexivity.
Defined.

(** C10, as stated, fails on "bıtcoin" (U+0131 for the first i): its
    lowercase form is no alias, its uppercase form is "BITCOIN", and
    "BITCOIN" is a casing of an alias. *)
Lemma get_symbol_from_name_not_idempotent :
  get_symbol_from_name ucd_excerpt dotless_bitcoin = py "BITCOIN" /\
  get_symbol_from_name ucd_excerpt
    (get_symbol_from_name ucd_excerpt dotless_bitcoin) = py "BTCUSDT" /\
  get_symbol_from_name ucd_excerpt
    (get_symbol_from_name ucd_excerpt dotless_bitcoin)
  <> get_symbol_from_name ucd_excerpt dotless_bitcoin.
Proof.
  repeat split; try reflexivity.
  intros H. vm_compute in H. discriminate H.
Qed.

(* ================================================================== *)
(** * The price and statistics tools: theorems *)

Lemma starts_with_app (p s : pystr) : starts_with p (p ++ s) = true.
Proof.
  induction p as [|a p IH]; simpl.
  - reflexivity.
  - now rewrite N.eqb_refl, IH.
Qed.

Lemma contains_unfold (hay needle : pystr) :
  contains hay needle
  = starts_with needle hay
    || match hay with [] => false | _ :: hay' => contains hay' needle end.
Proof. destruct hay; reflexivity. Qed.

Lemma contains_middle (a s b : pystr) : contains (a ++ s ++ b) s = true.
Proof.
  induction a as [|c a IH].
  - simpl app. rewrite contains_unfold, starts_with_app. reflexivity.
  - simpl. rewrite IH. apply orb_true_r.
Qed.

Lemma contains_inside (a s b hay : pystr) :
  hay = a ++ s ++ b -> contains hay s = true.
Proof. intros ->. apply contains_middle. Qed.

Lemma count_occ_newline_app (s t : pystr) :
  count_occ N.eq_dec (s ++ t) 10%N
  = (count_occ N.eq_dec s 10%N + count_occ N.eq_dec t 10%N)%nat.
Proof. apply count_occ_app. Qed.

Lemma count_occ_char_in (s : pystr) :
  char_in 10%N s = false -> count_occ N.eq_dec s 10%N = 0%nat.
Proof.
  intros H. apply count_occ_not_In. intros Hin.
  unfold char_in in H.
  assert (existsb (N.eqb 10) s = true) as Ht.
  { apply existsb_exists. exists 10%N. split; [assumption | apply N.eqb_refl]. }
  congruence.
Qed.

(** One step of a tool: the monad's combinators unfolded, the matches on
    results reduced, the literals left folded. *)
Ltac run_tool :=
  cbv beta iota zeta
    delta [bind try_except try_or_return requests_get Ticker option_chain
           emit append_log lift ret raise];
  cbn [log_file calls fst snd].

(** C7.  When the price endpoint answers with a status other than 200,
    [get_price] returns the dict [{"error": message}]; the message contains
    the normalized symbol and the status code; the log file is left as
    it was (only the request is recorded among the calls). *)
Theorem get_price_error_status (E : Env) (symbol : pystr) (w : World)
  (r : Response) :
  http_get E (price_url (get_symbol_from_name (ucd E) symbol)) = Ret r ->
  status_code r <> 200 ->
  exists message w',
    get_price E symbol w = (Ret (error_dict message), w') /\
    contains message (get_symbol_from_name (ucd E) symbol) = true /\
    contains message (str_of_Z (status_code r)) = true /\
    log_file w' = log_file w /\
    calls w' =
      calls w ++ [EvHttpGet (price_url (get_symbol_from_name (ucd E) symbol))].
Proof.
  intros Hget Hstatus.
  exists (py "Failed to fetch price for symbol "
            ++ get_symbol_from_name (ucd E) symbol
            ++ py ". Status code: " ++ str_of_Z (status_code r)).
  eexists. unfold get_price. run_tool. rewrite Hget.
  apply Z.eqb_neq in Hstatus. rewrite Hstatus. run_tool.
  split; [reflexivity|]. split; [|split; [|split; reflexivity]].
  - apply contains_middle.
  - eapply contains_inside with (b := []).
    rewrite app_nil_r, !app_assoc. reflexivity.
Qed.

Lemma get_price_error_status_witness :
  exists message w',
    get_price (sample_env 400 (Ret sample_chain) (argsort_insertion true))
      (py "xyz") empty_world = (Ret (error_dict message), w') /\
    contains message (py "XYZ") = true /\
    contains message (py "400") = true /\
    log_file w' = [] /\
    calls w' = [EvHttpGet (price_url (py "XYZ"))].
Proof.
  apply (get_price_error_status
           (sample_env 400 (Ret sample_chain) (argsort_insertion true))
           (py "xyz") empty_world
           (response_of 400 (Ret price_body))).
  - reflexivity.
  - discriminate.
Defined.

(** C8, as the code has it.  When the price endpoint answers with the
    status 200 and a body that has a "price" entry, and the log file opens
    and its encoding can hold the success text, [get_price] returns the
    string "The current price of {symbol} is {price}." and appends to the
    log one text, which ends in the line break and contains the
    normalized symbol, the price and the clock's reading; the text is one
    line when none of the three holds a line break.  When the text cannot
    be appended (the encoding of the file cannot hold it, or the file does
    not open), the exception of the write, a [UnicodeEncodeError] or an
    [OSError], reaches the caller and the log is as before. *)
Theorem get_price_success (E : Env) (symbol : pystr) (w : World)
  (r : Response) (body price : PyVal) :
  http_get E (price_url (get_symbol_from_name (ucd E) symbol)) = Ret r ->
  status_code r = 200 ->
  json r = Ret body ->
  getitem body (py "price") = Ret price ->
  (log_write E
     (py "Successfully fetched price for "
        ++ get_symbol_from_name (ucd E) symbol ++ py ": "
        ++ py_str E price ++ py ", Current Time: " ++ clock_now E
        ++ newline) = None ->
   exists line w',
     get_price E symbol w
     = (Ret (VStr (py "The current price of "
                     ++ get_symbol_from_name (ucd E) symbol ++ py " is "
                     ++ py_str E price ++ py ".")), w') /\
     log_file w' = log_file w ++ line ++ newline /\
     contains line (get_symbol_from_name (ucd E) symbol) = true /\
     contains line (py_str E price) = true /\
     contains line (clock_now E) = true /\
     (char_in 10%N (get_symbol_from_name (ucd E) symbol) = false ->
      char_in 10%N (py_str E price) = false ->
      char_in 10%N (clock_now E) = false ->
      count_occ N.eq_dec (line ++ newline) 10%N = 1%nat) /\
     calls w' =
       calls w
         ++ [EvHttpGet (price_url (get_symbol_from_name (ucd E) symbol))]) /\
  (forall e,
      log_write E
        (py "Successfully fetched price for "
           ++ get_symbol_from_name (ucd E) symbol ++ py ": "
           ++ py_str E price ++ py ", Current Time: " ++ clock_now E
           ++ newline) = Some e ->
      exists w',
        get_price E symbol w = (Raise e, w') /\
        log_file w' = log_file w).
Proof.
  intros Hget Hstatus Hjson Hprice. split.
  - intros Henc.
    exists (py "Successfully fetched price for "
              ++ get_symbol_from_name (ucd E) symbol ++ py ": "
              ++ py_str E price ++ py ", Current Time: " ++ clock_now E).
    eexists. unfold get_price. run_tool.
    rewrite Hget, Hstatus. run_tool. rewrite Hjson. run_tool.
    rewrite Hprice. run_tool. rewrite Henc.
    split; [reflexivity|]. cbn [log_file calls].
    split; [|split; [|split; [|split; [|split; [|reflexivity]]]]].
    + f_equal. rewrite <- !app_assoc. reflexivity.
    + apply contains_middle.
    + apply contains_inside
        with (a := py "Successfully fetched price for "
                     ++ get_symbol_from_name (ucd E) symbol ++ py ": ")
             (b := py ", Current Time: " ++ clock_now E).
      rewrite <- !app_assoc. reflexivity.
    + eapply contains_inside with (b := []).
      rewrite app_nil_r, !app_assoc. reflexivity.
    + intros Hs Hp Hc.
      rewrite !count_occ_newline_app.
      rewrite (count_occ_char_in _ Hs), (count_occ_char_in _ Hp),
        (count_occ_char_in _ Hc).
      reflexivity.
  - intros e Henc. eexists. unfold get_price. run_tool.
    rewrite Hget, Hstatus. run_tool. rewrite Hjson. run_tool.
    rewrite Hprice. run_tool. rewrite Henc.
    split; reflexivity.
Qed.

Lemma get_price_success_witness :
  exists line w',
    get_price (sample_env 200 (Ret sample_chain) (argsort_insertion true))
      (py "btc") empty_world
    = (Ret (VStr (py "The current price of BTCUSDT is 65000.12.")), w') /\
    log_file w' = line ++ newline /\
    contains line (py "BTCUSDT") = true /\
    contains line (py "65000.12") = true /\
    contains line (py "2025-11-04 09:56:00.000000") = true /\
    count_occ N.eq_dec (line ++ newline) 10%N = 1%nat.
Proof.
  destruct (proj1 (get_price_success
                     (sample_env 200 (Ret sample_chain)
                        (argsort_insertion true))
                     (py "btc") empty_world
                     (response_of 200 (Ret price_body)) price_body
                     (VStr (py "65000.12"))
                     eq_refl eq_refl eq_refl eq_refl) eq_refl)
    as (line & w' & H1 & H2 & H3 & H4 & H5 & H6 & _).
  exists line, w'.
  repeat split; try assumption.
  apply H6; reflexivity.
Defined.

(** C8, as stated, fails on a success status other than 200: at 201
    Created with the price in the body, [get_price] returns the error
    dict and logs nothing. *)
Lemma get_price_created_is_an_error :
  get_price (sample_env 201 (Ret sample_chain) (argsort_insertion true))
    (py "btc") empty_world
  = (Ret (error_dict
            (py "Failed to fetch price for symbol BTCUSDT. Status code: 201")),
     mkWorld [] [EvHttpGet (price_url (py "BTCUSDT"))]) /\
  json (response_of 201 (Ret price_body)) = Ret price_body /\
  getitem price_body (py "price") = Ret (VStr (py "65000.12")) /\
  fst (get_price (sample_env 201 (Ret sample_chain) (argsort_insertion true))
         (py "btc") empty_world)
  <> Ret (VStr (py "The current price of BTCUSDT is 65000.12.")).
Proof.
  split; [reflexivity|]. split; [reflexivity|]. split; [reflexivity|].
  intros H. vm_compute in H. discriminate H.
Qed.

(** C9.  [get_price_price_change] has no handler.  When the endpoint
    answers with an HTTP error status (4xx or 5xx, the statuses
    [raise_for_status] raises on) the call ends in the raised [HTTPError]:
    no value is returned.  Otherwise the decoded body is returned as it
    is.  The log file is not touched either way. *)
Theorem get_price_price_change_spec (E : Env) (symbol : pystr) (w : World)
  (r : Response) :
  http_get E (stats_url (get_symbol_from_name (ucd E) symbol)) = Ret r ->
  (http_error_status (status_code r) = true ->
   exists e,
     get_price_price_change E symbol w
     = (Raise e,
        mkWorld (log_file w)
          (calls w
             ++ [EvHttpGet (stats_url (get_symbol_from_name (ucd E) symbol))]))
     /\ exn_class e = py "HTTPError"
     /\ starts_with (str_of_Z (status_code r)) (exn_str e) = true) /\
  (http_error_status (status_code r) = false ->
   forall body,
     json r = Ret body ->
     get_price_price_change E symbol w
     = (Ret body,
        mkWorld (log_file w)
          (calls w
             ++ [EvHttpGet (stats_url (get_symbol_from_name (ucd E) symbol))]))).
Proof.
  intros Hget. unfold get_price_price_change, http_error_status.
  run_tool. rewrite Hget. run_tool. unfold raise_for_status.
  split.
  - intros Hs.
    destruct ((400 <=? status_code r) && (status_code r <? 500)) eqn:H4.
    + eexists. split; [reflexivity|]. split; [reflexivity|].
      cbn [exn_str]. apply starts_with_app.
    + assert ((500 <=? status_code r) && (status_code r <? 600) = true) as H5.
      { apply andb_prop in Hs as [Ha Hb]. rewrite Hb, andb_true_r.
        apply andb_false_elim in H4 as [H4|H4]; [congruence|].
        apply Z.ltb_ge in H4. apply Z.leb_le. lia. }
      rewrite H5. eexists. split; [reflexivity|]. split; [reflexivity|].
      cbn [exn_str]. apply starts_with_app.
  - intros Hs body Hbody.
    assert ((400 <=? status_code r) && (status_code r <? 500) = false) as H4.
    { apply andb_false_iff. apply andb_false_iff in Hs as [Hs|Hs].
      - now left.
      - right. apply Z.ltb_ge in Hs. apply Z.ltb_ge. lia. }
    assert ((500 <=? status_code r) && (status_code r <? 600) = false) as H5.
    { apply andb_false_iff. apply andb_false_iff in Hs as [Hs|Hs].
      - left. apply Z.leb_gt in Hs. apply Z.leb_gt. lia.
      - now right. }
    rewrite H4, H5. run_tool. now rewrite Hbody.
Qed.

Lemma get_price_price_change_spec_witness :
  (exists e,
      get_price_price_change
        (sample_env 404 (Ret sample_chain) (argsort_insertion true))
        (py "btc") empty_world
      = (Raise e, mkWorld [] [EvHttpGet (stats_url (py "BTCUSDT"))])
      /\ exn_class e = py "HTTPError"
      /\ starts_with (py "404") (exn_str e) = true) /\
  get_price_price_change
    (sample_env 200 (Ret sample_chain) (argsort_insertion true))
    (py "btc") empty_world
  = (Ret price_body, mkWorld [] [EvHttpGet (stats_url (py "BTCUSDT"))]).
Proof.
  split.
  - apply (get_price_price_change_spec
             (sample_env 404 (Ret sample_chain) (argsort_insertion true))
             (py "btc") empty_world (response_of 404 (Ret price_body))
             eq_refl).
    reflexivity.
  - apply (get_price_price_change_spec
             (sample_env 200 (Ret sample_chain) (argsort_insertion true))
             (py "btc") empty_world (response_of 200 (Ret price_body))
             eq_refl).
    + reflexivity.
    + reflexivity.
Defined.

(* ================================================================== *)
(** * The option premium tool: how a call unfolds *)

Section OptionPremiumPaths.
Variable E : Env.
Variables symbol expiry_date option_type : pystr.
Variable k : float.
Variable w : World.

Lemma body_bad_date :
  parse_expiry (ucd E) expiry_date = None ->
  get_option_premium_body E symbol k expiry_date option_type w
  = (Ret (error_dict (py "Invalid date format: " ++ expiry_date
                        ++ py ". Use 'YYYY-MM-DD' or 'MM/DD/YYYY'")), w).
Proof.
  intros H. unfold get_option_premium_body. now rewrite H.
Qed.

Lemma body_ticker_raises (d : date) (e : Exn) :
  parse_expiry (ucd E) expiry_date = Some d ->
  yf_Ticker E (py_upper (ucd E) symbol) = Raise e ->
  get_option_premium_body E symbol k expiry_date option_type w
  = (Raise e, after_ticker E symbol w).
Proof.
  intros H Ht. unfold get_option_premium_body. rewrite H.
  run_tool. rewrite Ht. reflexivity.
Qed.

Lemma body_chain_raises (d : date) (e : Exn) :
  parse_expiry (ucd E) expiry_date = Some d ->
  yf_Ticker E (py_upper (ucd E) symbol) = Ret tt ->
  yf_option_chain E (py_upper (ucd E) symbol) (strftime_iso d) = Raise e ->
  get_option_premium_body E symbol k expiry_date option_type w
  = (Ret (error_dict
            (py "Could not fetch options chain: " ++ exn_str e
               ++ py ". Make sure the expiry date is valid and the symbol has options available.")),
     after_chain E symbol d w).
Proof.
  intros H Ht Hc. unfold get_option_premium_body. rewrite H.
  run_tool. rewrite Ht. run_tool. rewrite Hc. reflexivity.
Qed.

Lemma body_chain_fetched (d : date) (c : OptionChain) :
  parse_expiry (ucd E) expiry_date = Some d ->
  yf_Ticker E (py_upper (ucd E) symbol) = Ret tt ->
  yf_option_chain E (py_upper (ucd E) symbol) (strftime_iso d) = Ret c ->
  get_option_premium_body E symbol k expiry_date option_type w
  = (lookup_premium E symbol k d option_type c, after_chain E symbol d w).
Proof.
  intros H Ht Hc. unfold get_option_premium_body. rewrite H.
  run_tool. rewrite Ht. run_tool. rewrite Hc. reflexivity.
Qed.

(** The outer handler: a value passes, an exception becomes a dict. *)
Lemma outer_handler :
  get_option_premium E symbol k expiry_date option_type w
  = match get_option_premium_body E symbol k expiry_date option_type w with
    | (Ret v, w') => (Ret v, w')
    | (Raise e, w') =>
        (Ret (error_dict (py "Error fetching option premium: "
                            ++ exn_str e)), w')
    end.
Proof. reflexivity. Qed.

Lemma premium_chain_fetched (d : date) (c : OptionChain) :
  parse_expiry (ucd E) expiry_date = Some d ->
  yf_Ticker E (py_upper (ucd E) symbol) = Ret tt ->
  yf_option_chain E (py_upper (ucd E) symbol) (strftime_iso d) = Ret c ->
  get_option_premium E symbol k expiry_date option_type w
  = (match lookup_premium E symbol k d option_type c with
     | Ret v => Ret v
     | Raise e => Ret (error_dict (py "Error fetching option premium: "
                                     ++ exn_str e))
     end, after_chain E symbol d w).
Proof.
  intros H Ht Hc. rewrite outer_handler, (body_chain_fetched d c H Ht Hc).
  now destruct (lookup_premium E symbol k d option_type c).
Qed.

End OptionPremiumPaths.

(* ================================================================== *)
(** * The option premium tool: exceptions and the expiry date *)

(** C1, as the code has it.  [get_option_premium] returns a value on every
    input: no exception reaches the caller.  An exception that leaves the
    statements inside the outer [try] becomes
    [{"error": "Error fetching option premium: " + str(e)}]; so do one
    raised by the ticker's constructor and one raised while the row is
    cast.  An exception raised by the request for the option chain is
    caught by the inner handler and becomes
    [{"error": "Could not fetch options chain: " + str(e) + ". Make sure
    ..."}]. *)
Theorem get_option_premium_never_raises (E : Env) (symbol : pystr)
  (k : float) (expiry_date option_type : pystr) (w : World) :
  (exists v w',
      get_option_premium E symbol k expiry_date option_type w = (Ret v, w')) /\
  (forall e w',
      get_option_premium_body E symbol k expiry_date option_type w
      = (Raise e, w') ->
      get_option_premium E symbol k expiry_date option_type w
      = (Ret (error_dict (py "Error fetching option premium: " ++ exn_str e)),
         w')) /\
  (forall d e,
      parse_expiry (ucd E) expiry_date = Some d ->
      yf_Ticker E (py_upper (ucd E) symbol) = Raise e ->
      get_option_premium E symbol k expiry_date option_type w
      = (Ret (error_dict (py "Error fetching option premium: " ++ exn_str e)),
         after_ticker E symbol w)) /\
  (forall d e,
      parse_expiry (ucd E) expiry_date = Some d ->
      yf_Ticker E (py_upper (ucd E) symbol) = Ret tt ->
      yf_option_chain E (py_upper (ucd E) symbol) (strftime_iso d) = Raise e ->
      get_option_premium E symbol k expiry_date option_type w
      = (Ret (error_dict
                (py "Could not fetch options chain: " ++ exn_str e
                   ++ py ". Make sure the expiry date is valid and the symbol has options available.")),
         after_chain E symbol d w)) /\
  (forall d c e,
      parse_expiry (ucd E) expiry_date = Some d ->
      yf_Ticker E (py_upper (ucd E) symbol) = Ret tt ->
      yf_option_chain E (py_upper (ucd E) symbol) (strftime_iso d) = Ret c ->
      lookup_premium E symbol k d option_type c = Raise e ->
      get_option_premium E symbol k expiry_date option_type w
      = (Ret (error_dict (py "Error fetching option premium: " ++ exn_str e)),
         after_chain E symbol d w)).
Proof.
  split; [|split; [|split; [|split]]].
  - rewrite outer_handler.
    destruct (get_option_premium_body E symbol k expiry_date option_type w)
      as [[v|e] w']; eauto.
  - intros e w' H. now rewrite outer_handler, H.
  - intros d e Hd Ht.
    now rewrite outer_handler, (body_ticker_raises _ _ _ _ _ _ d e Hd Ht).
  - intros d e Hd Ht Hc.
    now rewrite outer_handler, (body_chain_raises _ _ _ _ _ _ d e Hd Ht Hc).
  - intros d c e Hd Ht Hc Hl.
    now rewrite (premium_chain_fetched _ _ _ _ _ _ d c Hd Ht Hc), Hl.
Qed.

Lemma get_option_premium_never_raises_witness :
  get_option_premium
    (sample_env 200 (Ret overflow_chain) (argsort_insertion true))
    (py "aapl") (float_of_Z 100) (py "2025-11-07") (py "call") empty_world
  = (Ret (error_dict
            (py "Error fetching option premium: cannot convert float infinity to integer")),
     mkWorld []
       [EvTicker (py "AAPL"); EvOptionChain (py "AAPL") (py "2025-11-07")]).
Proof.
  apply (proj2 (proj2 (proj2 (proj2
           (get_option_premium_never_raises
              (sample_env 200 (Ret overflow_chain) (argsort_insertion true))
              (py "aapl") (float_of_Z 100) (py "2025-11-07") (py "call")
              empty_world))))
           (mkdate 2025 11 7) overflow_chain
           (mkExn (py "OverflowError")
              (py "cannot convert float infinity to integer")));
    reflexivity.
Defined.

(** C1, as stated, fails where the provider has no chain for the date: the
    message is the inner handler's, not "Error fetching option premium:
    ...". *)
Lemma get_option_premium_chain_error_message :
  fst (get_option_premium
         (sample_env 200 (Raise no_such_expiry) (argsort_insertion true))
         (py "aapl") (float_of_Z 100) (py "2025-11-07") (py "call")
         empty_world)
  = Ret (error_dict
           (py "Could not fetch options chain: Expiration `2025-11-07` cannot be found.. Make sure the expiry date is valid and the symbol has options available.")) /\
  fst (get_option_premium
         (sample_env 200 (Raise no_such_expiry) (argsort_insertion true))
         (py "aapl") (float_of_Z 100) (py "2025-11-07") (py "call")
         empty_world)
  <> Ret (error_dict
            (py "Error fetching option premium: Expiration `2025-11-07` cannot be found.")).
Proof.
  split.
  - reflexivity.
  - intros H. vm_compute in H. discriminate H.
Qed.

(** C5.  The expiry date is read as MM/DD/YYYY when it holds a slash and
    as YYYY-MM-DD otherwise.  When that reading fails the tool returns the
    "Invalid date format" dict and the world is as before: no call was
    made and nothing was logged.  "2025-11-07" and "11/07/2025" are the
    same date, and the tool does with one what it does with the other:
    same result, same calls, the chain asked for "2025-11-07". *)
Theorem get_option_premium_expiry_parsing (E : Env) :
  (forall s, char_in 47%N s = true ->
             parse_expiry (ucd E) s = strptime (ucd E) s (py "%m/%d/%Y")) /\
  (forall s, char_in 47%N s = false ->
             parse_expiry (ucd E) s = strptime (ucd E) s (py "%Y-%m-%d")) /\
  (forall symbol k s option_type w,
      parse_expiry (ucd E) s = None ->
      get_option_premium E symbol k s option_type w
      = (Ret (error_dict (py "Invalid date format: " ++ s
                            ++ py ". Use 'YYYY-MM-DD' or 'MM/DD/YYYY'")), w)) /\
  parse_expiry (ucd E) (py "2025-11-07") = Some (mkdate 2025 11 7) /\
  parse_expiry (ucd E) (py "11/07/2025") = Some (mkdate 2025 11 7) /\
  (forall symbol k option_type w,
      get_option_premium E symbol k (py "2025-11-07") option_type w
      = get_option_premium E symbol k (py "11/07/2025") option_type w) /\
  (forall symbol k option_type w,
      yf_Ticker E (py_upper (ucd E) symbol) = Ret tt ->
      calls (snd (get_option_premium E symbol k (py "11/07/2025")
                    option_type w))
      = calls w ++ [EvTicker (py_upper (ucd E) symbol);
                    EvOptionChain (py_upper (ucd E) symbol)
                      (py "2025-11-07")]).
Proof.
  assert (parse_expiry (ucd E) (py "2025-11-07") = Some (mkdate 2025 11 7))
    as Hiso by reflexivity.
  assert (parse_expiry (ucd E) (py "11/07/2025") = Some (mkdate 2025 11 7))
    as Hus by reflexivity.
  split; [|split; [|split; [|split; [|split; [|split]]]]]; try assumption.
  - intros s H. unfold parse_expiry. now rewrite H.
  - intros s H. unfold parse_expiry. now rewrite H.
  - intros symbol k s option_type w H.
    now rewrite outer_handler, (body_bad_date _ _ _ _ _ _ H).
  - intros symbol k option_type w.
    unfold get_option_premium, get_option_premium_body.
    now rewrite Hiso, Hus.
  - intros symbol k option_type w Ht.
    destruct (yf_option_chain E (py_upper (ucd E) symbol)
                (strftime_iso (mkdate 2025 11 7))) as [c|e] eqn:Hc.
    + rewrite (premium_chain_fetched _ _ _ _ _ _ _ c Hus Ht Hc).
      cbn [snd after_chain calls]. now rewrite <- app_assoc.
    + rewrite outer_handler, (body_chain_raises _ _ _ _ _ _ _ e Hus Ht Hc).
      cbn [snd after_chain calls]. now rewrite <- app_assoc.
Qed.

Lemma get_option_premium_expiry_parsing_witness :
  get_option_premium
    (sample_env 200 (Ret sample_chain) (argsort_insertion true))
    (py "aapl") (float_of_Z 100) (py "07.11.2025") (py "call") empty_world
  = (Ret (error_dict
            (py "Invalid date format: 07.11.2025. Use 'YYYY-MM-DD' or 'MM/DD/YYYY'")),
     empty_world).
Proof.
  apply (proj1 (proj2 (proj2
           (get_option_premium_expiry_parsing
              (sample_env 200 (Ret sample_chain) (argsort_insertion true))))))
    with (s := py "07.11.2025").
  reflexivity.
Defined.

(* ================================================================== *)
(** * The option premium tool: the row that is returned *)

(** The dict of lines 154-165 with the mid price looked at, whatever the
    ten values are. *)
Lemma with_mid_price_unfold (sy st ed ot lp b a vo oi iv : PyVal) :
  with_mid_price
    [ (py "symbol", sy); (py "strike", st); (py "expiry_date", ed);
      (py "option_type", ot); (py "last_price", lp); (py "bid", b);
      (py "ask", a); (py "volume", vo); (py "open_interest", oi);
      (py "implied_volatility", iv) ]
  = if is_none b || is_none a then
      Ret (VDict
             [ (py "symbol", sy); (py "strike", st); (py "expiry_date", ed);
               (py "option_type", ot); (py "last_price", lp); (py "bid", b);
               (py "ask", a); (py "volume", vo); (py "open_interest", oi);
               (py "implied_volatility", iv) ])
    else
      match mean_of b a with
      | Ret m =>
          Ret (VDict
                 [ (py "symbol", sy); (py "strike", st);
                   (py "expiry_date", ed); (py "option_type", ot);
                   (py "last_price", lp); (py "bid", b); (py "ask", a);
                   (py "volume", vo); (py "open_interest", oi);
                   (py "implied_volatility", iv); (py "mid_price", m) ])
      | Raise e => Raise e
      end.
Proof.
  destruct b, a; reflexivity.
Qed.

(** What a returned contract holds, field by field. *)
Lemma premium_of_row_fields (E : Env) (symbol option_type : pystr)
  (d : date) (r : Row) (v : PyVal) :
  premium_of_row E symbol option_type d r = Ret v ->
  exists dct,
    v = VDict dct /\
    has_key dct (py "error") = false /\
    dict_get dct (py "strike") = Some (VFloat (strike r)) /\
    dict_get dct (py "bid") = Some (float_or_none (bid r)) /\
    dict_get dct (py "ask") = Some (float_or_none (ask r)) /\
    dict_get dct (py "mid_price")
    = if notna (bid r) && notna (ask r)
      then Some (VFloat (fdiv (fadd (bid r) (ask r)) two))
      else None.
Proof.
  unfold premium_of_row, build_result.
  destruct (int_or_zero (volume r)) as [vo|]; [|discriminate].
  destruct (int_or_zero (openInterest r)) as [oi|]; [|discriminate].
  rewrite with_mid_price_unfold. unfold float_or_none.
  generalize (VStr (py_upper (ucd E) symbol)) (VStr (strftime_iso d))
    (VStr (py_lower (ucd E) option_type)) (VFloat (strike r)).
  intros sy ed ot st.
  destruct (notna (bid r)), (notna (ask r)); cbn [is_none orb andb mean_of];
    intros H; injection H as <-; eexists; (split; [reflexivity|]);
    repeat split; try reflexivity.
Qed.

(** Filtering and taking the head is finding the first. *)
Lemma matching_rows_head (df : DataFrame) (k : float) :
  hd_error (matching_rows df k) = first_within df k.
Proof.
  unfold matching_rows, first_within.
  induction df as [|r df IH]; simpl.
  - reflexivity.
  - destruct (within_tolerance k r); [reflexivity | exact IH].
Qed.

Lemma first_within_position (df : DataFrame) (k : float) (r : Row) :
  first_within df k = Some r <->
  exists pre post,
    df = pre ++ r :: post /\
    (forall x, In x pre -> within_tolerance k x = false) /\
    within_tolerance k r = true.
Proof.
  unfold first_within. split.
  - induction df as [|x df IH]; simpl; [discriminate|].
    destruct (within_tolerance k x) eqn:Hx.
    + intros [= ->]. exists [], df. repeat split; [|assumption].
      intros y [].
    + intros H. destruct (IH H) as (pre & post & -> & Hpre & Hr).
      exists (x :: pre), post. repeat split; [|assumption].
      intros y [<-|Hy]; [assumption | now apply Hpre].
  - intros (pre & post & -> & Hpre & Hr).
    induction pre as [|x pre IH]; simpl.
    + now rewrite Hr.
    + rewrite (Hpre x (or_introl eq_refl)). apply IH.
      intros y Hy. apply Hpre. now right.
Qed.

Lemma first_within_none (df : DataFrame) (k : float) :
  first_within df k = None ->
  forall x, In x df -> within_tolerance k x = false.
Proof.
  unfold first_within. intros H x Hx.
  destruct (within_tolerance k x) eqn:Hw; [|reflexivity].
  now rewrite (find_none _ _ H x Hx) in Hw.
Qed.

Lemma lookup_premium_found (E : Env) (symbol : pystr) (k : float)
  (d : date) (option_type : pystr) (c : OptionChain) (r : Row) :
  first_within (select_table E option_type c) k = Some r ->
  lookup_premium E symbol k d option_type c
  = premium_of_row E symbol option_type d r.
Proof.
  intros H. rewrite <- matching_rows_head in H. unfold lookup_premium.
  destruct (matching_rows (select_table E option_type c) k); simpl in H.
  - discriminate.
  - now injection H as ->.
Qed.

Lemma lookup_premium_not_found (E : Env) (symbol : pystr) (k : float)
  (d : date) (option_type : pystr) (c : OptionChain) :
  first_within (select_table E option_type c) k = None ->
  lookup_premium E symbol k d option_type c
  = match closest_strikes E (select_table E option_type c) k with
    | Ret closest => Ret (not_found E k d option_type closest)
    | Raise e => Raise e
    end.
Proof.
  intros H. rewrite <- matching_rows_head in H. unfold lookup_premium.
  destruct (matching_rows (select_table E option_type c) k); simpl in H.
  - reflexivity.
  - discriminate.
Qed.

(** A returned dict without an "error" entry was built from a row. *)
Lemma contract_inversion (E : Env) (symbol : pystr) (k : float)
  (expiry_date option_type : pystr) (w w' : World) (dct : pydict) :
  get_option_premium E symbol k expiry_date option_type w
  = (Ret (VDict dct), w') ->
  has_key dct (py "error") = false ->
  exists d c r,
    parse_expiry (ucd E) expiry_date = Some d /\
    yf_option_chain E (py_upper (ucd E) symbol) (strftime_iso d) = Ret c /\
    first_within (select_table E option_type c) k = Some r /\
    premium_of_row E symbol option_type d r = Ret (VDict dct).
Proof.
  intros H Herr.
  destruct (parse_expiry (ucd E) expiry_date) as [d|] eqn:Hd.
  2:{ rewrite outer_handler, (body_bad_date _ _ _ _ _ _ Hd) in H.
      injection H as <- _. discriminate Herr. }
  destruct (yf_Ticker E (py_upper (ucd E) symbol)) as [[]|e] eqn:Ht.
  2:{ rewrite outer_handler, (body_ticker_raises _ _ _ _ _ _ d e Hd Ht) in H.
      injection H as <- _. discriminate Herr. }
  destruct (yf_option_chain E (py_upper (ucd E) symbol) (strftime_iso d))
    as [c|e] eqn:Hc.
  2:{ rewrite outer_handler, (body_chain_raises _ _ _ _ _ _ d e Hd Ht Hc) in H.
      injection H as <- _. discriminate Herr. }
  rewrite (premium_chain_fetched _ _ _ _ _ _ d c Hd Ht Hc) in H.
  destruct (first_within (select_table E option_type c) k) as [r|] eqn:Hf.
  - exists d, c, r. repeat split; try assumption.
    rewrite (lookup_premium_found _ _ _ _ _ _ _ Hf) in H.
    destruct (premium_of_row E symbol option_type d r) as [v|e].
    + now injection H as ->.
    + injection H as <- _. discriminate Herr.
  - rewrite (lookup_premium_not_found _ _ _ _ _ _ Hf) in H.
    destruct (closest_strikes E (select_table E option_type c) k);
      injection H as <- _; discriminate Herr.
Qed.

(** The mask of line 137 is the test of the specification. *)
Lemma within_tolerance_spec (k : float) (r : Row) :
  within_tolerance k r = strike_within_hundredth k r.
Proof.
  unfold within_tolerance, strike_within_hundredth, fltb, SFltb, fabs, fsub.
  replace tolerance with hundredth by reflexivity.
  reflexivity.
Qed.

Lemma digits2_pos_bounds (m : positive) :
  2 ^ (Z.pos (digits2_pos m) - 1) <= Z.pos m < 2 ^ Z.pos (digits2_pos m).
Proof.
  induction m as [m IH|m IH|]; cbn [digits2_pos].
  - rewrite Pos2Z.inj_succ.
    replace (Z.succ (Z.pos (digits2_pos m)) - 1) with
      (Z.succ (Z.pos (digits2_pos m) - 1)) by lia.
    rewrite !Z.pow_succ_r by lia.
    destruct IH as [IH1 IH2]. revert IH1 IH2.
    generalize (2 ^ (Z.pos (digits2_pos m) - 1)) (2 ^ Z.pos (digits2_pos m)).
    intros a b. lia.
  - rewrite Pos2Z.inj_succ.
    replace (Z.succ (Z.pos (digits2_pos m)) - 1) with
      (Z.succ (Z.pos (digits2_pos m) - 1)) by lia.
    rewrite !Z.pow_succ_r by lia.
    destruct IH as [IH1 IH2]. revert IH1 IH2.
    generalize (2 ^ (Z.pos (digits2_pos m) - 1)) (2 ^ Z.pos (digits2_pos m)).
    intros a b. lia.
  - cbn. lia.
Qed.

Lemma below_hundredth_exact (x : float) :
  valid_binary prec emax x = true ->
  (SFcompare (SFabs x) hundredth = Some Lt <-> below_one_hundredth x = true).
Proof.
  destruct x as [s|s| |s m e]; cbn [valid_binary SFabs below_one_hundredth].
  - intros _. split; reflexivity.
  - intros _. split; discriminate.
  - intros _. split; discriminate.
  - unfold bounded, canonical_mantissa, fexp, emin, prec, emax.
    intros H. apply andb_prop in H as [Hc _].
    apply Z.eqb_eq in Hc.
    pose proof (digits2_pos_bounds m) as [Hlo Hhi].
    set (d := Z.pos (digits2_pos m)) in *.
    assert (0 < d) as Hd by (unfold d; lia).
    clearbody d.
    assert (Z.max (d + e - 53) (-1074) = e) as Hmax by exact Hc.
    clear Hc.
    assert (d <= 53 /\ (-1074 < e -> d = 53)) as [Hd53 Hnorm] by lia.
    unfold hundredth. cbn [SFcompare].
    destruct (Z.compare_spec e (-59)) as [He|He|He].
    + subst e.
      rewrite Pos.compare_cont_spec.
      replace (0 <=? -59) with false by reflexivity.
      replace (2 ^ (- -59)) with 576460752303423488 by reflexivity.
      rewrite Z.ltb_lt. clear Hlo Hhi.
      destruct (Pos.compare_spec m 5764607523034235) as [Hm|Hm|Hm];
        cbn [Pos.switch_Eq]; split; intros H;
        try reflexivity; try discriminate H.
      * exfalso. clear - Hm H. subst m. vm_compute in H. discriminate H.
      * clear - Hm. apply Pos2Z.pos_lt_pos in Hm. lia.
      * exfalso. clear - Hm H. apply Pos2Z.pos_lt_pos in Hm. lia.
    + assert (Z.pos m < 9007199254740992) as Hm.
      { eapply Z.lt_le_trans; [exact Hhi|].
        change 9007199254740992 with (2 ^ 53).
        apply Z.pow_le_mono_r; lia. }
      replace (0 <=? e) with false by (symmetry; apply Z.leb_gt; lia).
      split; [intros _|reflexivity].
      apply Z.ltb_lt.
      assert (1152921504606846976 <= 2 ^ (- e)) as Hp.
      { change 1152921504606846976 with (2 ^ 60).
        apply Z.pow_le_mono_r; lia. }
      clear Hlo Hhi. revert Hp. generalize (2 ^ (- e)). intros p Hp. lia.
    + split; [discriminate|].
      destruct (0 <=? e) eqn:He0; [discriminate|].
      apply Z.leb_gt in He0.
      assert (d = 53) as Hd' by lia.
      assert (4503599627370496 <= Z.pos m) as Hm.
      { eapply Z.le_trans; [|exact Hlo]. rewrite Hd'. reflexivity. }
      intros Hlt. exfalso. apply Z.ltb_lt in Hlt.
      assert (2 ^ (- e) <= 288230376151711744) as Hp.
      { change 288230376151711744 with (2 ^ 58).
        apply Z.pow_le_mono_r; lia. }
      clear Hlo Hhi. revert Hp Hlt. generalize (2 ^ (- e)). intros p Hp Hlt.
      lia.
Qed.

(** C2.  With the chain fetched, the rows that match are exactly the rows
    whose strike is within 0.01 of the requested strike: the binary64
    difference of the two, sign dropped, is below the binary64 number
    nearest to 0.01 (it is 12 hundredths of a last place off), which for a
    binary64 number is to be below 1/100 in exact arithmetic.  The row
    returned is the first such row of the selected table, in the table's
    order (the contract carries that row's strike), and without such a
    row the answer is an error dict.  A row with strike 100 matches the
    requests 100.005 and 100.009; it does not match 100.01, 99.99 or
    105. *)
Theorem get_option_premium_first_match (E : Env) (symbol : pystr)
  (k : float) (expiry_date option_type : pystr) (w : World) (d : date)
  (c : OptionChain) :
  parse_expiry (ucd E) expiry_date = Some d ->
  yf_Ticker E (py_upper (ucd E) symbol) = Ret tt ->
  yf_option_chain E (py_upper (ucd E) symbol) (strftime_iso d) = Ret c ->
  matching_rows (select_table E option_type c) k
  = filter (strike_within_hundredth k) (select_table E option_type c) /\
  (forall pre r post,
      select_table E option_type c = pre ++ r :: post ->
      (forall x, In x pre -> strike_within_hundredth k x = false) ->
      strike_within_hundredth k r = true ->
      fst (get_option_premium E symbol k expiry_date option_type w)
      = match premium_of_row E symbol option_type d r with
        | Ret v => Ret v
        | Raise e =>
            Ret (error_dict (py "Error fetching option premium: "
                               ++ exn_str e))
        end /\
      forall v,
        premium_of_row E symbol option_type d r = Ret v ->
        exists dct,
          v = VDict dct /\
          has_key dct (py "error") = false /\
          dict_get dct (py "strike") = Some (VFloat (strike r))) /\
  ((forall x, In x (select_table E option_type c) ->
              strike_within_hundredth k x = false) ->
   exists message rest,
     fst (get_option_premium E symbol k expiry_date option_type w)
     = Ret (VDict ((py "error", VStr message) :: rest))) /\
  (forall x,
      valid_binary prec emax x = true ->
      (SFcompare (SFabs x) hundredth = Some Lt <->
       below_one_hundredth x = true)) /\
  (valid_binary prec emax hundredth = true /\
   hundredths_off hundredth = Some 12) /\
  (forall r,
      strike r = float_of_Z 100 ->
      strike_within_hundredth (float_of_decimal 100005 1000) r = true /\
      strike_within_hundredth (float_of_decimal 100009 1000) r = true /\
      strike_within_hundredth (float_of_decimal 10001 100) r = false /\
      strike_within_hundredth (float_of_decimal 9999 100) r = false /\
      strike_within_hundredth (float_of_Z 105) r = false).
Proof.
  intros Hd Ht Hc.
  rewrite (premium_chain_fetched _ _ _ _ _ _ d c Hd Ht Hc). cbn [fst].
  split; [|split; [|split; [|split; [|split]]]].
  - unfold matching_rows. apply filter_ext. apply within_tolerance_spec.
  - intros pre r post Htab Hpre Hr.
    assert (first_within (select_table E option_type c) k = Some r) as Hf.
    { apply first_within_position. exists pre, post.
      split; [assumption|]. split.
      - intros x Hx. rewrite within_tolerance_spec. now apply Hpre.
      - now rewrite within_tolerance_spec. }
    rewrite (lookup_premium_found _ _ _ _ _ _ _ Hf).
    split; [reflexivity|].
    intros v Hv.
    destruct (premium_of_row_fields _ _ _ _ _ _ Hv)
      as (dct & -> & Herr & Hstrike & _).
    now exists dct.
  - intros Hnone.
    assert (first_within (select_table E option_type c) k = None) as Hf.
    { destruct (first_within (select_table E option_type c) k) as [r|] eqn:Hf;
        [|reflexivity].
      apply first_within_position in Hf as (pre & post & Htab & _ & Hr).
      rewrite within_tolerance_spec, Hnone in Hr; [discriminate|].
      rewrite Htab. apply in_or_app. right. now left. }
    rewrite (lookup_premium_not_found _ _ _ _ _ _ Hf).
    destruct (closest_strikes E (select_table E option_type c) k);
      eexists; eexists; reflexivity.
  - apply below_hundredth_exact.
  - split; reflexivity.
  - intros r Hr. unfold strike_within_hundredth. rewrite Hr.
    repeat split; reflexivity.
Qed.

Lemma get_option_premium_first_match_witness :
  exists dct,
    fst (get_option_premium
           (sample_env 200 (Ret sample_chain) (argsort_insertion true))
           (py "aapl") (float_of_decimal 100005 1000) (py "11/07/2025")
           (py "call") empty_world)
    = Ret (VDict dct) /\
    has_key dct (py "error") = false /\
    dict_get dct (py "strike") = Some (VFloat (float_of_Z 100)).
Proof.
  destruct (get_option_premium_first_match
              (sample_env 200 (Ret sample_chain) (argsort_insertion true))
              (py "aapl") (float_of_decimal 100005 1000) (py "11/07/2025")
              (py "call") empty_world (mkdate 2025 11 7) sample_chain
              eq_refl eq_refl eq_refl) as (_ & Hfirst & _).
  destruct (Hfirst
              [row_of (float_of_Z 95) (float_of_decimal 65 10)
                 (float_of_decimal 67 10)]
              (row_of (float_of_Z 100) (float_of_decimal 15 10)
                 (float_of_decimal 25 10))
              [row_of (float_of_Z 105) S754_nan (float_of_decimal 5 10)])
    as (Hres & Hfields).
  - reflexivity.
  - intros x [<-|[]]. reflexivity.
  - reflexivity.
  - destruct (Hfields _ eq_refl) as (dct & Hv & Herr & Hstrike).
    exists dct. rewrite Hres. repeat split; try assumption.
    now rewrite <- Hv.
Defined.

(** C4.  In a contract that [get_option_premium] returns, "bid" and "ask"
    are present and each is a float or [None]; "mid_price" is present when
    and only when neither is [None], and it is then the float
    [(bid + ask) / 2]: the binary64 sum of the two, divided by 2. *)
Theorem mid_price_iff_bid_and_ask (E : Env) (symbol : pystr) (k : float)
  (expiry_date option_type : pystr) (w w' : World) (dct : pydict) :
  get_option_premium E symbol k expiry_date option_type w
  = (Ret (VDict dct), w') ->
  has_key dct (py "error") = false ->
  exists b a,
    dict_get dct (py "bid") = Some b /\
    dict_get dct (py "ask") = Some a /\
    (b = VNone \/ exists x, b = VFloat x) /\
    (a = VNone \/ exists y, a = VFloat y) /\
    (has_key dct (py "mid_price") = true <-> b <> VNone /\ a <> VNone) /\
    (forall x y,
        b = VFloat x -> a = VFloat y ->
        dict_get dct (py "mid_price") = Some (VFloat (fdiv (fadd x y) two))).
Proof.
  intros H Herr.
  destruct (contract_inversion _ _ _ _ _ _ _ _ H Herr)
    as (d & c & r & _ & _ & _ & Hrow).
  destruct (premium_of_row_fields _ _ _ _ _ _ Hrow)
    as (dct' & [= <-] & _ & _ & Hb & Ha & Hm).
  exists (float_or_none (bid r)), (float_or_none (ask r)).
  split; [assumption|]. split; [assumption|].
  unfold has_key. rewrite Hm. unfold float_or_none.
  destruct (notna (bid r)), (notna (ask r)); cbn [andb];
    (split; [eauto|]); (split; [eauto|]); split;
    try (split; [intros _; split; discriminate
                | intros [Hx Hy]; try reflexivity; congruence]);
    try (split; [discriminate | intros [Hx Hy]; congruence]);
    intros x y Hx Hy; congruence.
Qed.

Lemma mid_price_iff_bid_and_ask_witness :
  exists b a,
    b = VFloat (float_of_decimal 15 10) /\
    a = VFloat (float_of_decimal 25 10) /\
    exists dct w',
      get_option_premium
        (sample_env 200 (Ret sample_chain) (argsort_insertion true))
        (py "aapl") (float_of_Z 100) (py "2025-11-07") (py "call")
        empty_world
      = (Ret (VDict dct), w') /\
      dict_get dct (py "bid") = Some b /\
      dict_get dct (py "ask") = Some a /\
      dict_get dct (py "mid_price") = Some (VFloat (float_of_Z 2)).
Proof.
  eexists. eexists. split; [reflexivity|]. split; [reflexivity|].
  eexists. eexists. split; [reflexivity|].
  split; [reflexivity|]. split; [reflexivity|].
  match goal with
  | |- dict_get ?dct _ = _ =>
      destruct (mid_price_iff_bid_and_ask
                  (sample_env 200 (Ret sample_chain) (argsort_insertion true))
                  (py "aapl") (float_of_Z 100) (py "2025-11-07") (py "call")
                  empty_world _ dct eq_refl eq_refl)
        as (b & a & Hb & Ha & _ & _ & _ & Hmid)
  end.
  injection Hb as <-. injection Ha as <-.
  rewrite (Hmid _ _ eq_refl eq_refl). reflexivity.
Defined.

(* ================================================================== *)
(** * The option premium tool: the nearby strikes *)

Lemma positions_in (n : nat) (i : Z) :
  In i (positions n) <-> 0 <= i < Z.of_nat n.
Proof.
  unfold positions. rewrite in_map_iff. split.
  - intros (j & <- & Hj). apply in_seq in Hj. lia.
  - intros H. exists (Z.to_nat i). split; [lia|]. apply in_seq. lia.
Qed.

Lemma positions_NoDup (n : nat) : NoDup (positions n).
Proof.
  unfold positions.
  assert (forall l, NoDup l -> NoDup (map Z.of_nat l)) as Hmap.
  { induction 1 as [|x l Hx Hl IH]; simpl; constructor; [|assumption].
    rewrite in_map_iff. intros (y & Hy & Hin).
    apply Nat2Z.inj in Hy. now subst. }
  apply Hmap, seq_NoDup.
Qed.

Lemma positions_length (n : nat) : List.length (positions n) = n.
Proof. unfold positions. now rewrite length_map, length_seq. Qed.

(** An answer that meets the contract is a permutation of the positions. *)
Lemma argsort_contract_permutation (keys : list float) (p : list Z) :
  argsort_contract keys p = true ->
  Permutation (positions (List.length keys)) p /\ ascending keys p = true.
Proof.
  unfold argsort_contract. intros H.
  apply andb_prop in H as [H Hasc]. apply andb_prop in H as [Hlen Hall].
  split; [|assumption].
  apply Nat.eqb_eq in Hlen.
  apply NoDup_Permutation_bis.
  - apply positions_NoDup.
  - rewrite positions_length. lia.
  - intros i Hi. rewrite forallb_forall in Hall.
    specialize (Hall i Hi). apply existsb_exists in Hall as (j & Hj & Hij).
    apply Z.eqb_eq in Hij. now subst.
Qed.

Lemma row_at_positions (df : DataFrame) (r0 : Row) :
  map (row_at df r0) (positions (List.length df)) = df.
Proof.
  unfold positions, row_at. rewrite map_map.
  rewrite (map_ext _ (fun i => nth i df r0))
    by (intros i; now rewrite Nat2Z.id).
  induction df as [|r df IH]; simpl.
  - reflexivity.
  - f_equal. rewrite <- seq_shift, map_map. exact IH.
Qed.

Lemma iloc_row_in_range (df : DataFrame) (r0 : Row) (i : Z) :
  0 <= i < Z.of_nat (List.length df) ->
  iloc_row df i = Ret (row_at df r0 i).
Proof.
  intros H. unfold iloc_row, row_at.
  replace (i <? 0) with false by (symmetry; apply Z.ltb_ge; lia).
  replace (0 <=? i) with true by (symmetry; apply Z.leb_le; lia).
  replace (i <? Z.of_nat (List.length df)) with true
    by (symmetry; apply Z.ltb_lt; lia).
  cbn [andb].
  destruct (nth_error df (Z.to_nat i)) as [r|] eqn:Hn.
  - now rewrite (nth_error_nth _ _ r0 Hn).
  - apply nth_error_None in Hn. lia.
Qed.

Lemma iloc_rows_in_range (df : DataFrame) (r0 : Row) (l : list Z) :
  (forall i, In i l -> 0 <= i < Z.of_nat (List.length df)) ->
  iloc_rows df l = Ret (map (row_at df r0) l).
Proof.
  induction l as [|i l IH]; intros H; simpl.
  - reflexivity.
  - rewrite (iloc_row_in_range df r0 i) by (apply H; now left).
    rewrite IH by (intros j Hj; apply H; now right).
    reflexivity.
Qed.

(** The key at a position of the frame is the distance of its row. *)
Lemma key_at_distance (df : DataFrame) (r0 : Row) (k : float) (i : Z) :
  0 <= i < Z.of_nat (List.length df) ->
  key_at (distances df k) i = distance k (row_at df r0 i).
Proof.
  intros H. unfold key_at, distances, row_at.
  rewrite (nth_indep _ S754_nan (distance k r0))
    by (rewrite length_map; lia).
  apply (map_nth (distance k)).
Qed.

Lemma ascending_app (keys : list float) (l1 l2 : list Z) :
  ascending keys (l1 ++ l2) = true ->
  ascending keys l1 = true /\
  forall i j, In i l1 -> In j l2 ->
              np_le (key_at keys i) (key_at keys j) = true.
Proof.
  induction l1 as [|x l1 IH]; simpl; intros H.
  - split; [reflexivity | intros i j []].
  - apply andb_prop in H as [Hx Hrest].
    destruct (IH Hrest) as [Hl1 Hcross].
    rewrite forallb_app in Hx. apply andb_prop in Hx as [Hx1 Hx2].
    split.
    + now rewrite Hx1, Hl1.
    + intros i j [<-|Hi] Hj.
      * rewrite forallb_forall in Hx2. now apply Hx2.
      * now apply Hcross.
Qed.

Lemma ascending_rows (df : DataFrame) (r0 : Row) (k : float) (l : list Z) :
  (forall i, In i l -> 0 <= i < Z.of_nat (List.length df)) ->
  ascending (distances df k) l = true ->
  StronglySorted (not_farther k) (map (row_at df r0) l).
Proof.
  induction l as [|x l IH]; intros Hrange H; simpl.
  - constructor.
  - simpl in H. apply andb_prop in H as [Hx Hl]. constructor.
    + apply IH; [|assumption]. intros j Hj. apply Hrange. now right.
    + apply Forall_forall. intros r Hr.
      apply in_map_iff in Hr as (j & <- & Hj).
      rewrite forallb_forall in Hx. specialize (Hx j Hj).
      unfold not_farther.
      rewrite <- (key_at_distance df r0 k x) by (apply Hrange; now left).
      rewrite <- (key_at_distance df r0 k j) by (apply Hrange; now right).
      exact Hx.
Qed.

(** The rows line 141 picks, for any answer of argsort that meets the
    contract: the first five along the answer. *)
Lemma closest_rows (E : Env) (df : DataFrame) (r0 : Row) (k : float) :
  argsort_contract (distances df k) (np_argsort E (distances df k)) = true ->
  exists near rest,
    closest_strikes E df k = Ret (map strike near) /\
    Permutation df (near ++ rest) /\
    List.length near = Nat.min 5 (List.length df) /\
    StronglySorted (not_farther k) near /\
    (forall a b, In a near -> In b rest -> not_farther k a b).
Proof.
  intros Hc. set (p := np_argsort E (distances df k)) in *.
  destruct (argsort_contract_permutation _ _ Hc) as [Hperm Hasc].
  assert (List.length (distances df k) = List.length df) as Hlen
    by apply length_map.
  rewrite Hlen in Hperm.
  assert (forall i, In i p -> 0 <= i < Z.of_nat (List.length df)) as Hrange.
  { intros i Hi. apply positions_in.
    apply (Permutation_in _ (Permutation_sym Hperm) Hi). }
  assert (forall i, In i (firstn 5 p) -> In i p) as Hfirst.
  { intros i Hi. rewrite <- (firstn_skipn 5 p). apply in_or_app. now left. }
  assert (forall i, In i (skipn 5 p) -> In i p) as Hskip.
  { intros i Hi. rewrite <- (firstn_skipn 5 p). apply in_or_app. now right. }
  rewrite <- (firstn_skipn 5 p) in Hasc.
  apply ascending_app in Hasc as [Hnear Hcross].
  exists (map (row_at df r0) (firstn 5 p)), (map (row_at df r0) (skipn 5 p)).
  split; [|split; [|split; [|split]]].
  - unfold closest_strikes. fold p.
    now rewrite (iloc_rows_in_range df r0) by auto.
  - rewrite <- map_app, firstn_skipn.
    rewrite <- (row_at_positions df r0) at 1.
    now apply Permutation_map.
  - rewrite length_map, length_firstn.
    rewrite <- (Permutation_length Hperm), positions_length. reflexivity.
  - apply ascending_rows; auto.
  - intros a b Ha Hb.
    apply in_map_iff in Ha as (i & <- & Hi).
    apply in_map_iff in Hb as (j & <- & Hj).
    unfold not_farther.
    rewrite <- (key_at_distance df r0 k i) by auto.
    rewrite <- (key_at_distance df r0 k j) by auto.
    now apply Hcross.
Qed.

(** C3, as the code has it.  With the chain fetched, no strike within
    0.01 of the requested strike and an answer of argsort that meets its
    contract (a permutation of the positions of the table along which the
    distances ascend, which is what pandas answers when no distance is
    NaN), the tool returns the "No option found" dict: the requested
    strike, the expiry date as YYYY-MM-DD and the option type as given,
    and under "available_strikes_nearby" the strikes of [min 5 n] rows of
    the table, in ascending distance to the requested strike, every row
    left out being at least as far as every row listed.  The order among
    rows at the same distance is argsort's. *)
Theorem get_option_premium_nearby_strikes (E : Env) (symbol : pystr)
  (k : float) (expiry_date option_type : pystr) (w : World) (d : date)
  (c : OptionChain) :
  parse_expiry (ucd E) expiry_date = Some d ->
  yf_Ticker E (py_upper (ucd E) symbol) = Ret tt ->
  yf_option_chain E (py_upper (ucd E) symbol) (strftime_iso d) = Ret c ->
  (forall x, In x (select_table E option_type c) ->
             strike_within_hundredth k x = false) ->
  argsort_contract (distances (select_table E option_type c) k)
    (np_argsort E (distances (select_table E option_type c) k)) = true ->
  exists near rest,
    fst (get_option_premium E symbol k expiry_date option_type w)
    = Ret (VDict
             [ (py "error",
                 VStr (py "No option found with strike " ++ float_str E k));
               (py "available_strikes_nearby",
                 VList (map VFloat (map strike near)));
               (py "requested_strike", VFloat k);
               (py "expiry_date", VStr (strftime_iso d));
               (py "option_type", VStr option_type) ]) /\
    Permutation (select_table E option_type c) (near ++ rest) /\
    List.length near
    = Nat.min 5 (List.length (select_table E option_type c)) /\
    StronglySorted (not_farther k) near /\
    (forall a b, In a near -> In b rest -> not_farther k a b).
Proof.
  intros Hd Ht Hc Hnone Hcontract.
  destruct (closest_rows E _ (row_of S754_nan S754_nan S754_nan) k Hcontract)
    as (near & rest & Hclosest & Hperm & Hlen & Hsorted & Hcross).
  exists near, rest.
  split; [|repeat split; assumption].
  rewrite (premium_chain_fetched _ _ _ _ _ _ d c Hd Ht Hc). cbn [fst].
  assert (first_within (select_table E option_type c) k = None) as Hf.
  { destruct (first_within (select_table E option_type c) k) as [r|] eqn:Hf;
      [|reflexivity].
    apply first_within_position in Hf as (pre & post & Htab & _ & Hr).
    rewrite within_tolerance_spec, Hnone in Hr; [discriminate|].
    rewrite Htab. apply in_or_app. right. now left. }
  rewrite (lookup_premium_not_found _ _ _ _ _ _ Hf), Hclosest.
  reflexivity.
Qed.

Lemma get_option_premium_nearby_strikes_witness :
  (exists near rest,
      fst (get_option_premium
             (sample_env 200 (Ret sample_chain) (argsort_insertion true))
             (py "aapl") (float_of_Z 150) (py "2025-11-07") (py "call")
             empty_world)
      = Ret (VDict
               [ (py "error", VStr (py "No option found with strike 150.0"));
                 (py "available_strikes_nearby",
                   VList (map VFloat (map strike near)));
                 (py "requested_strike", VFloat (float_of_Z 150));
                 (py "expiry_date", VStr (py "2025-11-07"));
                 (py "option_type", VStr (py "call")) ]) /\
      Permutation (chain_calls sample_chain) (near ++ rest) /\
      List.length near = 3%nat /\
      StronglySorted (not_farther (float_of_Z 150)) near /\
      (forall a b, In a near -> In b rest ->
                   not_farther (float_of_Z 150) a b)) /\
  closest_strikes
    (sample_env 200 (Ret sample_chain) (argsort_insertion true))
    (chain_calls sample_chain) (float_of_Z 150)
  = Ret [float_of_Z 105; float_of_Z 100; float_of_Z 95].
Proof.
  split; [|reflexivity].
  apply (get_option_premium_nearby_strikes
           (sample_env 200 (Ret sample_chain) (argsort_insertion true))
           (py "aapl") (float_of_Z 150) (py "2025-11-07") (py "call")
           empty_world (mkdate 2025 11 7) sample_chain
           eq_refl eq_refl eq_refl).
  - intros x Hx. vm_compute in Hx.
    destruct Hx as [<-|[<-|[<-|[]]]]; reflexivity.
  - reflexivity.
Defined.

(** The entry of the "No option found" dict that lists the strikes. *)
Lemma not_found_nearby (E : Env) (k : float) (d : date)
  (option_type : pystr) (closest : list float) (dct : pydict) :
  not_found E k d option_type closest = VDict dct ->
  dict_get dct (py "available_strikes_nearby")
  = Some (VList (map VFloat closest)).
Proof. intros [= <-]. reflexivity. Qed.

(** In the calls of [strikes_90_to_110] the strike 90 + j is at the
    position j and nowhere else. *)
Lemma strike_position (r0 : Row) (i j : Z) :
  In i (positions 21) ->
  In j [8; 9; 10; 11; 12] ->
  strike (row_at (chain_calls strikes_90_to_110) r0 i)
  = float_of_Z (90 + j) ->
  i = j.
Proof.
  intros Hi Hj H. cbv in Hi.
  repeat (destruct Hi as [<-|Hi]; [|]);
    try (destruct Hi);
    cbv [In] in Hj;
    repeat (destruct Hj as [<-|Hj]; [|]);
    try (destruct Hj);
    try reflexivity;
    vm_compute in H; discriminate H.
Qed.

(** On the 21 strikes 90 to 110 and the request 100.5 the tool lists the
    five strikes that the specification names, in its order, only for an
    answer of argsort that starts with the positions 10, 11, 9, 12, 8:
    the one answer among those the contract allows that keeps the rows at
    the same distance in the order of the table. *)
Lemma table_order_needs_stable_answer (argsort : list float -> list Z)
  (w : World) (dct : pydict) :
  argsort_contract
    (distances (chain_calls strikes_90_to_110) (float_of_decimal 1005 10))
    (argsort (distances (chain_calls strikes_90_to_110)
                (float_of_decimal 1005 10))) = true ->
  fst (get_option_premium (wide_env argsort) (py "aapl")
         (float_of_decimal 1005 10) (py "2025-11-07") (py "call") w)
  = Ret (VDict dct) ->
  dict_get dct (py "available_strikes_nearby")
  = Some (VList (map VFloat
                   (nearest_in_table_order (chain_calls strikes_90_to_110)
                      (float_of_decimal 1005 10)))) ->
  firstn 5 (argsort (distances (chain_calls strikes_90_to_110)
                       (float_of_decimal 1005 10)))
  = [10; 11; 9; 12; 8].
Proof.
  intros Hc Hres Hget.
  set (k := float_of_decimal 1005 10) in *.
  set (df := chain_calls strikes_90_to_110) in *.
  set (r0 := row_of S754_nan S754_nan S754_nan).
  rewrite (premium_chain_fetched (wide_env argsort) (py "aapl")
             (py "2025-11-07") (py "call") k w (mkdate 2025 11 7)
             strikes_90_to_110 eq_refl eq_refl eq_refl)
    in Hres.
  cbn [fst] in Hres.
  assert (select_table (wide_env argsort) (py "call") strikes_90_to_110 = df)
    as Htab by reflexivity.
  rewrite lookup_premium_not_found in Hres
    by (rewrite Htab; vm_compute; reflexivity).
  rewrite Htab in Hres. unfold closest_strikes in Hres.
  cbn [np_argsort wide_env] in Hres.
  destruct (argsort_contract_permutation _ _ Hc) as [Hperm _].
  set (p := argsort (distances df k)) in *.
  assert (List.length (distances df k) = 21%nat) as Hlen by reflexivity.
  rewrite Hlen in Hperm.
  assert (List.length p = 21%nat) as Hp
    by (rewrite <- (Permutation_length Hperm); reflexivity).
  assert (forall i, In i p -> In i (positions 21)) as Hin
    by (intros i Hi; apply (Permutation_in _ (Permutation_sym Hperm) Hi)).
  clearbody p. clear Hperm Hc Hlen.
  destruct p as [|a [|b [|c [|d [|e rest]]]]]; try discriminate Hp.
  cbn [firstn] in *.
  assert (forall i, In i [a; b; c; d; e] ->
                    0 <= i < Z.of_nat (List.length df)) as Hrange.
  { intros i Hi. apply (positions_in 21). apply Hin.
    cbn [In] in *. tauto. }
  rewrite (iloc_rows_in_range df r0 _ Hrange) in Hres.
  apply (f_equal (fun o => match o with Ret v => v | Raise _ => VNone end))
    in Hres.
  rewrite (not_found_nearby _ _ _ _ _ _ Hres) in Hget.
  replace (nearest_in_table_order df k)
    with (map (fun j => float_of_Z (90 + j)) [10; 11; 9; 12; 8]) in Hget
    by (vm_compute; reflexivity).
  cbn [map] in Hget.
  injection Hget as Ha Hb Hc Hd He.
  rewrite (strike_position r0 a 10), (strike_position r0 b 11),
    (strike_position r0 c 9), (strike_position r0 d 12),
    (strike_position r0 e 8);
    try reflexivity; try assumption;
    try (apply Hin; cbn [In]; tauto);
    cbn [In]; tauto.
Qed.

(** C3, as stated, fails on ties.  The calls of [strikes_90_to_110] have
    the 21 strikes 90 to 110, and the request is 100.5: the strikes 100
    and 101 are at the distance 0.5, 99 and 102 at 1.5, 98 and 103 at 2.5.
    numpy's quicksort answers with the positions 10, 11, 12, 9, 13 first,
    an answer that meets the contract, and the tool lists 100, 101, 102,
    99, 103, where the order of the table gives 100, 101, 99, 102, 98: 102
    before 99, and 103 in the place of 98.  (On the three puts of the
    sample chain, at the distances 5, 5 and 10 of the request 100, the same
    sort keeps the order of the table: so short a column is sorted by
    insertion.) *)
Lemma nearby_strikes_quicksort_order :
  np_argsort (wide_env aquicksort)
    (distances (chain_calls strikes_90_to_110) (float_of_decimal 1005 10))
  = [10; 11; 12; 9; 13; 8; 7; 14; 6; 15; 16; 5; 4; 17; 3; 18; 19; 2; 20; 1;
     0] /\
  argsort_contract
    (distances (chain_calls strikes_90_to_110) (float_of_decimal 1005 10))
    (np_argsort (wide_env aquicksort)
       (distances (chain_calls strikes_90_to_110)
          (float_of_decimal 1005 10))) = true /\
  fst (get_option_premium (wide_env aquicksort) (py "aapl")
         (float_of_decimal 1005 10) (py "2025-11-07") (py "call")
         empty_world)
  = Ret (VDict
           [ (py "error", VStr (py "No option found with strike 100.5"));
             (py "available_strikes_nearby",
               VList [ VFloat (float_of_Z 100); VFloat (float_of_Z 101);
                       VFloat (float_of_Z 102); VFloat (float_of_Z 99);
                       VFloat (float_of_Z 103) ]);
             (py "requested_strike", VFloat (float_of_decimal 1005 10));
             (py "expiry_date", VStr (py "2025-11-07"));
             (py "option_type", VStr (py "call")) ]) /\
  nearest_in_table_order (chain_calls strikes_90_to_110)
    (float_of_decimal 1005 10)
  = [float_of_Z 100; float_of_Z 101; float_of_Z 99; float_of_Z 102;
     float_of_Z 98] /\
  aquicksort (distances (chain_puts sample_chain) (float_of_Z 100))
  = [0; 1; 2] /\
  [float_of_Z 100; float_of_Z 101; float_of_Z 102; float_of_Z 99;
   float_of_Z 103]
  <> nearest_in_table_order (chain_calls strikes_90_to_110)
       (float_of_decimal 1005 10).
Proof.
  split; [vm_compute; reflexivity|]. split; [vm_compute; reflexivity|].
  split; [vm_compute; reflexivity|]. split; [vm_compute; reflexivity|].
  split; [vm_compute; reflexivity|].
  intros H. vm_compute in H. discriminate H.
Qed.

(* ================================================================== *)
(** * Further properties: the normalizer and the casing of symbols *)

Lemma ascii_upper_lower (c : codepoint) :
  ascii_upper (ascii_lower c) = ascii_upper c.
Proof.
  unfold ascii_lower, ascii_upper.
  destruct (N.leb_spec 65 c), (N.leb_spec c 90); simpl;
    repeat match goal with
           | |- context [N.leb ?a ?b] => destruct (N.leb_spec a b); simpl
           end; lia.
Qed.

Lemma ascii_lower_lt (c : codepoint) : (ascii_lower c < 128 -> c < 128)%N.
Proof.
  unfold ascii_lower.
  destruct (N.leb_spec 65 c), (N.leb_spec c 90); simpl; lia.
Qed.

Lemma ascii_upper_not_lower (c : codepoint) :
  is_lower_letter (ascii_upper c) = false.
Proof.
  unfold is_lower_letter, in_range, ascii_upper.
  destruct (N.leb_spec 97 c), (N.leb_spec c 122); simpl;
    repeat match goal with
           | |- context [N.leb ?a ?b] => destruct (N.leb_spec a b); simpl
           end; try reflexivity; lia.
Qed.

(** Two spellings of one word: both ASCII, the same lowered, the same
    raised. *)
Lemma casing_of_maps (s t : pystr) :
  casing_of s t = true ->
  is_ascii s = true /\ is_ascii t = true /\
  map ascii_lower s = map ascii_lower t /\
  map ascii_upper s = map ascii_upper t.
Proof.
  revert t. induction s as [|c s IH]; intros [|d t] H; simpl in *;
    try discriminate.
  - repeat split.
  - apply andb_prop in H as [H Hs]. apply andb_prop in H as [Hc Hcd].
    apply N.eqb_eq in Hcd. destruct (IH t Hs) as (Ha & Hb & Hl & Hu).
    rewrite Hc, Ha, Hb, Hl, Hu, Hcd. simpl.
    assert ((d <? 128)%N = true) as Hd.
    { apply N.ltb_lt. apply ascii_lower_lt. rewrite <- Hcd.
      apply N.ltb_lt in Hc. unfold ascii_lower.
      destruct (N.leb_spec 65 c), (N.leb_spec c 90); simpl; lia. }
    rewrite Hd. repeat split.
    f_equal. rewrite <- (ascii_upper_lower c), <- (ascii_upper_lower d).
    now rewrite Hcd.
Qed.

Lemma casing_of_upper (U : Unicode) (s t : pystr) :
  casing_of s t = true -> py_upper U s = py_upper U t.
Proof.
  intros H. destruct (casing_of_maps s t H) as (Hs & Ht & _ & Hu).
  now rewrite (py_upper_ascii U s Hs), (py_upper_ascii U t Ht).
Qed.

Lemma casing_of_lower (U : Unicode) (s t : pystr) :
  casing_of s t = true -> py_lower U s = py_lower U t.
Proof.
  intros H. destruct (casing_of_maps s t H) as (Hs & Ht & Hl & _).
  now rewrite (py_lower_ascii U s Hs), (py_lower_ascii U t Ht).
Qed.

Lemma casing_of_raised (s : pystr) :
  is_ascii s = true -> casing_of (map ascii_upper s) s = true.
Proof.
  induction s as [|c s IH]; intros H; simpl in *.
  - reflexivity.
  - apply andb_prop in H as [Hc Hs]. rewrite (IH Hs), ascii_lower_upper.
    rewrite N.eqb_refl. apply N.ltb_lt in Hc. apply ascii_upper_lt in Hc.
    apply N.ltb_lt in Hc. now rewrite Hc.
Qed.

Lemma normalizer_casing (U : Unicode) (s t : pystr) :
  casing_of s t = true ->
  get_symbol_from_name U s = get_symbol_from_name U t.
Proof.
  intros H. unfold get_symbol_from_name.
  now rewrite (casing_of_lower U s t H), (casing_of_upper U s t H).
Qed.

(** X1.  The normalizer does not see the case of ASCII letters: two
    spellings that differ only in case go to the same symbol; so a
    string of ASCII characters and its uppercase form do. *)
Theorem get_symbol_from_name_ignores_case (U : Unicode) (s t : pystr) :
  casing_of s t = true ->
  get_symbol_from_name U s = get_symbol_from_name U t /\
  get_symbol_from_name U (py_upper U s) = get_symbol_from_name U t.
Proof.
  intros H.
  destruct (casing_of_maps s t H) as (Hs & Ht & _).
  assert (casing_of (py_upper U s) s = true) as Hup.
  { rewrite (py_upper_ascii U s Hs). now apply casing_of_raised. }
  split.
  - now apply normalizer_casing.
  - rewrite (normalizer_casing U _ _ Hup). now apply normalizer_casing.
Qed.

Lemma get_symbol_from_name_ignores_case_witness :
  casing_of (py "eThErEuM") (py "ethereum") = true /\
  get_symbol_from_name ucd_excerpt (py "eThErEuM")
  = get_symbol_from_name ucd_excerpt (py "ethereum") /\
  get_symbol_from_name ucd_excerpt (py_upper ucd_excerpt (py "eThErEuM"))
  = get_symbol_from_name ucd_excerpt (py "ethereum").
Proof.
  split; [reflexivity|].
  apply (get_symbol_from_name_ignores_case ucd_excerpt (py "eThErEuM")
           (py "ethereum")).
  reflexivity.
Defined.

(** X2.  On a string of ASCII characters the normalizer answers with a
    string of ASCII characters that has no lowercase letter, and, unless
    an alias matched, of the same length. *)
Theorem get_symbol_from_name_uppercase (U : Unicode) (s : pystr) :
  is_ascii s = true ->
  is_ascii (get_symbol_from_name U s) = true /\
  existsb is_lower_letter (get_symbol_from_name U s) = false /\
  (str_in_list (py_lower U s)
     [py "bitcoin"; py "btc"; py "ethereum"; py "eth"] = false ->
   List.length (get_symbol_from_name U s) = List.length s).
Proof.
  intros Hs. unfold get_symbol_from_name, str_in_list. simpl existsb.
  destruct (pystr_eqb (py_lower U s) (py "bitcoin")); [repeat split; discriminate|].
  destruct (pystr_eqb (py_lower U s) (py "btc")); [repeat split; discriminate|].
  destruct (pystr_eqb (py_lower U s) (py "ethereum"));
    [repeat split; discriminate|].
  destruct (pystr_eqb (py_lower U s) (py "eth")); [repeat split; discriminate|].
  simpl. rewrite (py_upper_ascii U s Hs).
  split; [now apply is_ascii_upper|]. split.
  - clear Hs. induction s as [|c s IH]; simpl; [reflexivity|].
    now rewrite ascii_upper_not_lower, IH.
  - intros _. apply length_map.
Qed.

Lemma get_symbol_from_name_uppercase_witness :
  is_ascii (py "Sol-usd") = true /\
  get_symbol_from_name ucd_excerpt (py "Sol-usd") = py "SOL-USD" /\
  existsb is_lower_letter (get_symbol_from_name ucd_excerpt (py "Sol-usd"))
  = false.
Proof.
  split; [reflexivity|]. split; [reflexivity|].
  apply (get_symbol_from_name_uppercase ucd_excerpt (py "Sol-usd")).
  reflexivity.
Defined.

(* ================================================================== *)
(** * Further properties: the price tools and the log *)

(** How a call of [get_price] unfolds, by the answer of the endpoint. *)
Lemma get_price_request_raises (E : Env) (symbol : pystr) (w : World)
  (e : Exn) :
  http_get E (price_url (get_symbol_from_name (ucd E) symbol)) = Raise e ->
  get_price E symbol w
  = (Raise e,
     after_request (price_url (get_symbol_from_name (ucd E) symbol)) w).
Proof.
  intros H. unfold get_price. run_tool. now rewrite H.
Qed.

Lemma get_price_answered (E : Env) (symbol : pystr) (w : World)
  (r : Response) :
  http_get E (price_url (get_symbol_from_name (ucd E) symbol)) = Ret r ->
  get_price E symbol w
  = if negb (status_code r =? 200) then
      (Ret (error_dict
              (py "Failed to fetch price for symbol "
                 ++ get_symbol_from_name (ucd E) symbol
                 ++ py ". Status code: " ++ str_of_Z (status_code r))),
       after_request (price_url (get_symbol_from_name (ucd E) symbol)) w)
    else
      match json r with
      | Raise e =>
          (Raise e,
           after_request (price_url (get_symbol_from_name (ucd E) symbol)) w)
      | Ret body =>
          match getitem body (py "price") with
          | Raise e =>
              (Raise e,
               after_request
                 (price_url (get_symbol_from_name (ucd E) symbol)) w)
          | Ret price =>
              match log_write E
                      (success_line E (get_symbol_from_name (ucd E) symbol)
                         price) with
              | Some e =>
                  (Raise e,
                   after_request
                     (price_url (get_symbol_from_name (ucd E) symbol)) w)
              | None =>
                  (Ret (VStr (price_sentence E
                                (get_symbol_from_name (ucd E) symbol)
                                price)),
                   mkWorld
                     (log_file w
                        ++ success_line E
                             (get_symbol_from_name (ucd E) symbol) price)
                     (calls w
                        ++ [EvHttpGet
                              (price_url
                                 (get_symbol_from_name (ucd E) symbol))]))
              end
          end
      end.
Proof.
  intros H. unfold get_price. run_tool. rewrite H. run_tool.
  destruct (negb (status_code r =? 200)); [reflexivity|].
  destruct (json r) as [body|e]; [|reflexivity]. run_tool.
  destruct (getitem body (py "price")) as [price|e]; [|reflexivity].
  run_tool. unfold success_line.
  destruct (log_write E _); reflexivity.
Qed.

(** X3.  [get_price] makes exactly one request, for the price of the
    normalized symbol, whatever happens next; and it writes to the log
    only when it returns the price sentence: if it raises or returns the
    error dict the log is as before, and otherwise the log has grown by
    the one success text. *)
Theorem get_price_effects (E : Env) (symbol : pystr) (w : World) :
  calls (snd (get_price E symbol w))
  = calls w
      ++ [EvHttpGet (price_url (get_symbol_from_name (ucd E) symbol))] /\
  ((log_file (snd (get_price E symbol w)) = log_file w /\
    ((exists e, fst (get_price E symbol w) = Raise e) \/
     (exists message,
         fst (get_price E symbol w) = Ret (error_dict message)))) \/
   (exists price,
       fst (get_price E symbol w)
       = Ret (VStr (price_sentence E (get_symbol_from_name (ucd E) symbol)
                      price)) /\
       log_file (snd (get_price E symbol w))
       = log_file w
           ++ success_line E (get_symbol_from_name (ucd E) symbol) price)).
Proof.
  destruct (http_get E (price_url (get_symbol_from_name (ucd E) symbol)))
    as [r|e] eqn:Hget.
  - rewrite (get_price_answered E symbol w r Hget).
    destruct (negb (status_code r =? 200)).
    + split; [reflexivity|]. left. split; [reflexivity|]. right.
      eexists. reflexivity.
    + destruct (json r) as [body|e].
      * destruct (getitem body (py "price")) as [price|e].
        -- destruct (log_write E
                       (success_line E (get_symbol_from_name (ucd E) symbol)
                          price)) as [e|].
           ++ split; [reflexivity|]. left. split; [reflexivity|]. left.
              eexists. reflexivity.
           ++ split; [reflexivity|]. right. exists price.
              split; reflexivity.
        -- split; [reflexivity|]. left. split; [reflexivity|]. left.
           eexists. reflexivity.
      * split; [reflexivity|]. left. split; [reflexivity|]. left.
        eexists. reflexivity.
  - rewrite (get_price_request_raises E symbol w e Hget).
    split; [reflexivity|]. left. split; [reflexivity|]. left.
    eexists. reflexivity.
Qed.

(** X4.  [get_price] has no handler of its own.  An exception of
    [requests.get], of [response.json()] on a 200 answer, or of the lookup
    of "price" in the decoded body (a [KeyError] when the body is a dict
    without that key) reaches the caller, and the log is left as it
    was. *)
Theorem get_price_propagates (E : Env) (symbol : pystr) (w : World) :
  (forall e,
      http_get E (price_url (get_symbol_from_name (ucd E) symbol)) = Raise e ->
      fst (get_price E symbol w) = Raise e /\
      log_file (snd (get_price E symbol w)) = log_file w) /\
  (forall r e,
      http_get E (price_url (get_symbol_from_name (ucd E) symbol)) = Ret r ->
      status_code r = 200 ->
      json r = Raise e ->
      fst (get_price E symbol w) = Raise e /\
      log_file (snd (get_price E symbol w)) = log_file w) /\
  (forall r d,
      http_get E (price_url (get_symbol_from_name (ucd E) symbol)) = Ret r ->
      status_code r = 200 ->
      json r = Ret (VDict d) ->
      has_key d (py "price") = false ->
      (exists e, fst (get_price E symbol w) = Raise e /\
                 exn_class e = py "KeyError") /\
      log_file (snd (get_price E symbol w)) = log_file w).
Proof.
  split; [|split].
  - intros e H. now rewrite (get_price_request_raises E symbol w e H).
  - intros r e H Hs Hj.
    rewrite (get_price_answered E symbol w r H), Hs, Hj. now split.
  - intros r d H Hs Hj Hk.
    rewrite (get_price_answered E symbol w r H), Hs, Hj.
    unfold getitem, has_key in *.
    destruct (dict_get d (py "price")); [discriminate|].
    cbn [negb Z.eqb fst snd]. split; [|reflexivity].
    eexists. split; reflexivity.
Qed.

Lemma get_price_propagates_witness :
  (exists e,
      fst (get_price
             (endpoint_env
                (Ret (response_of 200 (Ret (VDict [(py "code", VInt 0)])))))
             (py "btc") empty_world) = Raise e /\
      exn_class e = py "KeyError") /\
  log_file (snd (get_price
                   (endpoint_env
                      (Ret (response_of 200
                              (Ret (VDict [(py "code", VInt 0)])))))
                   (py "btc") empty_world)) = [].
Proof.
  apply (proj2 (proj2
           (get_price_propagates
              (endpoint_env
                 (Ret (response_of 200 (Ret (VDict [(py "code", VInt 0)])))))
              (py "btc") empty_world))
           (response_of 200 (Ret (VDict [(py "code", VInt 0)])))
           [(py "code", VInt 0)]);
    reflexivity.
Defined.

(** X5.  Whatever [get_price_price_change] returns is the decoded body of
    an answer whose status is no HTTP error: it builds no value of its
    own.  It makes exactly one request, for the statistics of the
    normalized symbol, and never writes to the log. *)
Theorem get_price_price_change_effects (E : Env) (symbol : pystr)
  (w : World) :
  snd (get_price_price_change E symbol w)
  = after_request (stats_url (get_symbol_from_name (ucd E) symbol)) w /\
  (forall v,
      fst (get_price_price_change E symbol w) = Ret v ->
      exists r,
        http_get E (stats_url (get_symbol_from_name (ucd E) symbol)) = Ret r /\
        http_error_status (status_code r) = false /\
        json r = Ret v) /\
  (forall e,
      http_get E (stats_url (get_symbol_from_name (ucd E) symbol)) = Raise e ->
      fst (get_price_price_change E symbol w) = Raise e) /\
  (forall r e,
      http_get E (stats_url (get_symbol_from_name (ucd E) symbol)) = Ret r ->
      http_error_status (status_code r) = false ->
      json r = Raise e ->
      fst (get_price_price_change E symbol w) = Raise e).
Proof.
  unfold get_price_price_change. run_tool.
  destruct (http_get E (stats_url (get_symbol_from_name (ucd E) symbol)))
    as [r|e] eqn:Hget; run_tool.
  - unfold raise_for_status, http_error_status.
    destruct ((400 <=? status_code r) && (status_code r <? 500)) eqn:H4;
      [|destruct ((500 <=? status_code r) && (status_code r <? 600)) eqn:H5];
      run_tool.
    + split; [reflexivity|]. split; [discriminate|]. split; [discriminate|].
      intros r' e [= <-] Hs. exfalso.
      apply andb_prop in H4 as [Ha Hb]. rewrite Ha in Hs. cbn [andb] in Hs.
      apply Z.ltb_lt in Hb. apply Z.ltb_ge in Hs. lia.
    + split; [reflexivity|]. split; [discriminate|]. split; [discriminate|].
      intros r' e [= <-] Hs. exfalso.
      apply andb_prop in H5 as [Ha Hb]. rewrite Hb, andb_true_r in Hs.
      apply Z.leb_le in Ha. apply Z.leb_gt in Hs. lia.
    + assert ((400 <=? status_code r) && (status_code r <? 600) = false)
        as Hs.
      { apply andb_false_iff. apply andb_false_iff in H4 as [H4|H4].
        - now left.
        - apply andb_false_iff in H5 as [H5|H5]; [|now right].
          apply Z.ltb_ge in H4. apply Z.leb_gt in H5. lia. }
      destruct (json r) as [body|e] eqn:Hj.
      * split; [reflexivity|]. split.
        -- intros v [= <-]. exists r. now repeat split.
        -- split; [discriminate|]. intros r' e [= <-] _ He. congruence.
      * split; [reflexivity|]. split; [discriminate|].
        split; [discriminate|]. intros r' e' [= <-] _ He. congruence.
  - split; [reflexivity|]. split; [discriminate|].
    split; [now intros e' [= <-] | discriminate].
Qed.

(** X7.  The tools take a symbol in any casing: for two spellings that
    differ only in the case of ASCII letters, each of the three tools,
    and the price resource, does the same: same result, same calls,
    same log. *)
Theorem tools_ignore_symbol_case (E : Env) (s t : pystr) :
  casing_of s t = true ->
  (forall w, get_price E s w = get_price E t w) /\
  (forall w, get_crypto_price E s w = get_crypto_price E t w) /\
  (forall w, get_price_price_change E s w = get_price_price_change E t w) /\
  (forall k expiry_date option_type w,
      get_option_premium E s k expiry_date option_type w
      = get_option_premium E t k expiry_date option_type w).
Proof.
  intros H.
  pose proof (normalizer_casing (ucd E) s t H) as Hn.
  pose proof (casing_of_upper (ucd E) s t H) as Hu.
  repeat split; intros.
  - unfold get_price. now rewrite Hn.
  - unfold get_crypto_price, get_price. now rewrite Hn.
  - unfold get_price_price_change. now rewrite Hn.
  - unfold get_option_premium, get_option_premium_body, lookup_premium,
      premium_of_row, build_result.
    now rewrite Hu.
Qed.

Lemma tools_ignore_symbol_case_witness :
  casing_of (py "aapl") (py "AAPL") = true /\
  get_option_premium
    (sample_env 200 (Ret sample_chain) (argsort_insertion true))
    (py "aapl") (float_of_Z 100) (py "2025-11-07") (py "call") empty_world
  = get_option_premium
      (sample_env 200 (Ret sample_chain) (argsort_insertion true))
      (py "AAPL") (float_of_Z 100) (py "2025-11-07") (py "call") empty_world.
Proof.
  split; [reflexivity|].
  apply (tools_ignore_symbol_case
           (sample_env 200 (Ret sample_chain) (argsort_insertion true))
           (py "aapl") (py "AAPL")).
  reflexivity.
Defined.

(* ================================================================== *)
(** * Further properties: the option premium tool *)

(** The four ways a call of [get_option_premium] can go. *)
Lemma premium_cases (E : Env) (symbol : pystr) (k : float)
  (expiry_date option_type : pystr) (w : World) :
  (parse_expiry (ucd E) expiry_date = None /\
   get_option_premium E symbol k expiry_date option_type w
   = (Ret (error_dict (py "Invalid date format: " ++ expiry_date
                         ++ py ". Use 'YYYY-MM-DD' or 'MM/DD/YYYY'")), w)) \/
  (exists d e,
      parse_expiry (ucd E) expiry_date = Some d /\
      yf_Ticker E (py_upper (ucd E) symbol) = Raise e /\
      get_option_premium E symbol k expiry_date option_type w
      = (Ret (error_dict (py "Error fetching option premium: " ++ exn_str e)),
         after_ticker E symbol w)) \/
  (exists d e,
      parse_expiry (ucd E) expiry_date = Some d /\
      yf_Ticker E (py_upper (ucd E) symbol) = Ret tt /\
      yf_option_chain E (py_upper (ucd E) symbol) (strftime_iso d) = Raise e /\
      get_option_premium E symbol k expiry_date option_type w
      = (Ret (error_dict
                (py "Could not fetch options chain: " ++ exn_str e
                   ++ py ". Make sure the expiry date is valid and the symbol has options available.")),
         after_chain E symbol d w)) \/
  (exists d c,
      parse_expiry (ucd E) expiry_date = Some d /\
      yf_Ticker E (py_upper (ucd E) symbol) = Ret tt /\
      yf_option_chain E (py_upper (ucd E) symbol) (strftime_iso d) = Ret c /\
      get_option_premium E symbol k expiry_date option_type w
      = (match lookup_premium E symbol k d option_type c with
         | Ret v => Ret v
         | Raise e =>
             Ret (error_dict (py "Error fetching option premium: "
                                ++ exn_str e))
         end, after_chain E symbol d w)).
Proof.
  destruct (parse_expiry (ucd E) expiry_date) as [d|] eqn:Hd.
  2:{ left. split; [reflexivity|].
      now rewrite outer_handler, (body_bad_date _ _ _ _ _ _ Hd). }
  right.
  destruct (yf_Ticker E (py_upper (ucd E) symbol)) as [[]|e] eqn:Ht.
  2:{ left. exists d, e. repeat split.
      now rewrite outer_handler, (body_ticker_raises _ _ _ _ _ _ d e Hd Ht). }
  right.
  destruct (yf_option_chain E (py_upper (ucd E) symbol) (strftime_iso d))
    as [c|e] eqn:Hc.
  - right. exists d, c. repeat split; try assumption.
    apply (premium_chain_fetched _ _ _ _ _ _ d c Hd Ht Hc).
  - left. exists d, e. repeat split; try assumption.
    now rewrite outer_handler, (body_chain_raises _ _ _ _ _ _ d e Hd Ht Hc).
Qed.

Lemma int_or_zero_value (x : float) (v : PyVal) :
  int_or_zero x = Ret v ->
  exists z,
    v = VInt z /\
    (is_nan x = true -> z = 0) /\
    (is_nan x = false -> py_int x = Ret z).
Proof.
  unfold int_or_zero, notna. destruct (is_nan x) eqn:Hn; cbn [negb].
  - intros [= <-]. exists 0. repeat split. discriminate.
  - destruct (py_int x) as [z|e]; [|discriminate].
    intros [= <-]. exists z. repeat split. discriminate.
Qed.

(** The whole contract built from a row. *)
Lemma premium_of_row_contract (E : Env) (symbol option_type : pystr)
  (d : date) (r : Row) (v : PyVal) :
  premium_of_row E symbol option_type d r = Ret v ->
  exists vo oi,
    int_or_zero (volume r) = Ret vo /\
    int_or_zero (openInterest r) = Ret oi /\
    v = VDict
          ([ (py "symbol", VStr (py_upper (ucd E) symbol));
             (py "strike", VFloat (strike r));
             (py "expiry_date", VStr (strftime_iso d));
             (py "option_type", VStr (py_lower (ucd E) option_type));
             (py "last_price", float_or_none (lastPrice r));
             (py "bid", float_or_none (bid r));
             (py "ask", float_or_none (ask r));
             (py "volume", vo);
             (py "open_interest", oi);
             (py "implied_volatility",
               float_or_none (impliedVolatility r)) ]
             ++ if notna (bid r) && notna (ask r)
                then [(py "mid_price",
                        VFloat (fdiv (fadd (bid r) (ask r)) two))]
                else []).
Proof.
  unfold premium_of_row, build_result.
  destruct (int_or_zero (volume r)) as [vo|]; [|discriminate].
  destruct (int_or_zero (openInterest r)) as [oi|]; [|discriminate].
  rewrite with_mid_price_unfold. intros H. exists vo, oi.
  split; [reflexivity|]. split; [reflexivity|].
  unfold float_or_none in *.
  destruct (notna (bid r)), (notna (ask r));
    cbn [is_none orb andb mean_of app] in *; now injection H as <-.
Qed.

(** X8.  [get_option_premium] never writes to the log and never sends an
    HTTP request of its own.  Its calls are, in this order and each at
    most once: the construction of the ticker for the uppercase symbol,
    then the request for the chain of that ticker at the parsed date in
    the form YYYY-MM-DD.  A date that does not parse stops it before the
    first, a failing constructor before the second. *)
Theorem get_option_premium_calls (E : Env) (symbol : pystr) (k : float)
  (expiry_date option_type : pystr) (w : World) :
  log_file (snd (get_option_premium E symbol k expiry_date option_type w))
  = log_file w /\
  ((parse_expiry (ucd E) expiry_date = None /\
    calls (snd (get_option_premium E symbol k expiry_date option_type w))
    = calls w) \/
   (exists d e,
       parse_expiry (ucd E) expiry_date = Some d /\
       yf_Ticker E (py_upper (ucd E) symbol) = Raise e /\
       calls (snd (get_option_premium E symbol k expiry_date option_type w))
       = calls w ++ [EvTicker (py_upper (ucd E) symbol)]) \/
   (exists d,
       parse_expiry (ucd E) expiry_date = Some d /\
       yf_Ticker E (py_upper (ucd E) symbol) = Ret tt /\
       calls (snd (get_option_premium E symbol k expiry_date option_type w))
       = calls w ++ [EvTicker (py_upper (ucd E) symbol);
                     EvOptionChain (py_upper (ucd E) symbol)
                       (strftime_iso d)])).
Proof.
  destruct (premium_cases E symbol k expiry_date option_type w)
    as [[Hd ->]|[(d & e & Hd & Ht & ->)|[(d & e & Hd & Ht & Hc & ->)
                                        |(d & c & Hd & Ht & Hc & ->)]]];
    cbn [snd log_file calls after_ticker after_chain];
    (split; [reflexivity|]).
  - left. now split.
  - right. left. exists d, e. now repeat split.
  - right. right. exists d. repeat split; try assumption.
    now rewrite <- app_assoc.
  - right. right. exists d. repeat split; try assumption.
    now rewrite <- app_assoc.
Qed.

(** X9.  [get_option_premium] always returns a dict.  The dict either has
    an "error" entry, or it is a contract: its keys are symbol, strike,
    expiry_date, option_type, last_price, bid, ask, volume, open_interest
    and implied_volatility, in this order, with mid_price after them or
    not. *)
Theorem get_option_premium_result_shape (E : Env) (symbol : pystr)
  (k : float) (expiry_date option_type : pystr) (w : World) :
  exists dct,
    fst (get_option_premium E symbol k expiry_date option_type w)
    = Ret (VDict dct) /\
    (has_key dct (py "error") = true \/
     (has_key dct (py "error") = false /\
      (map fst dct = contract_keys \/
       map fst dct = contract_keys ++ [py "mid_price"]))).
Proof.
  destruct (premium_cases E symbol k expiry_date option_type w)
    as [[Hd ->]|[(d & e & Hd & Ht & ->)|[(d & e & Hd & Ht & Hc & ->)
                                        |(d & c & Hd & Ht & Hc & ->)]]];
    cbn [fst]; try (eexists; split; [reflexivity | now left]).
  unfold lookup_premium.
  destruct (matching_rows (select_table E option_type c) k) as [|r rows].
  - destruct (closest_strikes E (select_table E option_type c) k);
      eexists; (split; [reflexivity | now left]).
  - destruct (premium_of_row E symbol option_type d r) as [v|e] eqn:Hrow.
    + destruct (premium_of_row_contract _ _ _ _ _ _ Hrow)
        as (vo & oi & _ & _ & ->).
      eexists. split; [reflexivity|]. right.
      destruct (notna (bid r) && notna (ask r)).
      * split; [reflexivity|]. now right.
      * split; [reflexivity|]. now left.
    + eexists. split; [reflexivity | now left].
Qed.

(** X10.  A returned contract echoes the request in normal form, not as
    typed: "symbol" is the uppercase symbol, "expiry_date" the parsed
    date as YYYY-MM-DD, "option_type" the lowercase option type.  Its
    "strike" is the strike of a row of the selected table that is within
    the tolerance of the requested strike; it need not be the requested
    strike itself. *)
Theorem contract_echoes_request (E : Env) (symbol : pystr) (k : float)
  (expiry_date option_type : pystr) (w w' : World) (dct : pydict) :
  get_option_premium E symbol k expiry_date option_type w
  = (Ret (VDict dct), w') ->
  has_key dct (py "error") = false ->
  exists d c r,
    parse_expiry (ucd E) expiry_date = Some d /\
    yf_option_chain E (py_upper (ucd E) symbol) (strftime_iso d) = Ret c /\
    In r (select_table E option_type c) /\
    within_tolerance k r = true /\
    dict_get dct (py "symbol") = Some (VStr (py_upper (ucd E) symbol)) /\
    dict_get dct (py "strike") = Some (VFloat (strike r)) /\
    dict_get dct (py "expiry_date") = Some (VStr (strftime_iso d)) /\
    dict_get dct (py "option_type")
    = Some (VStr (py_lower (ucd E) option_type)).
Proof.
  intros H Herr.
  destruct (contract_inversion _ _ _ _ _ _ _ _ H Herr)
    as (d & c & r & Hd & Hc & Hf & Hrow).
  exists d, c, r.
  apply first_within_position in Hf as (pre & post & Htab & _ & Hr).
  destruct (premium_of_row_contract _ _ _ _ _ _ Hrow)
    as (vo & oi & _ & _ & [= ->]).
  split; [assumption|]. split; [assumption|]. split.
  { rewrite Htab. apply in_or_app. right. now left. }
  split; [assumption|].
  destruct (notna (bid r) && notna (ask r)); repeat split; reflexivity.
Qed.

Lemma contract_echoes_request_witness :
  exists dct w',
    get_option_premium
      (sample_env 200 (Ret sample_chain) (argsort_insertion true))
      (py "aapl") (float_of_decimal 100005 1000) (py "11/7/2025") (py "CALL")
      empty_world
    = (Ret (VDict dct), w') /\
    dict_get dct (py "symbol") = Some (VStr (py "AAPL")) /\
    dict_get dct (py "strike") = Some (VFloat (float_of_Z 100)) /\
    dict_get dct (py "expiry_date") = Some (VStr (py "2025-11-07")) /\
    dict_get dct (py "option_type") = Some (VStr (py "call")).
Proof.
  eexists. eexists. split; [reflexivity|].
  match goal with
  | |- dict_get ?dct _ = _ /\ _ =>
      destruct (contract_echoes_request
                  (sample_env 200 (Ret sample_chain) (argsort_insertion true))
                  (py "aapl") (float_of_decimal 100005 1000) (py "11/7/2025")
                  (py "CALL") empty_world _ dct eq_refl eq_refl)
        as (d & c & r & Hd & Hc & _ & _ & Hsym & _ & _ & Hty)
  end.
  split; [exact Hsym|]. split; [reflexivity|]. split; [reflexivity|].
  exact Hty.
Defined.

(** X11.  In a returned contract "volume" and "open_interest" are always
    integers, never [None]: 0 where the cell of the row is NaN, and the
    cell cut to an integer otherwise; "last_price" and
    "implied_volatility" are the cell, or [None] where it is NaN. *)
Theorem contract_counts_and_prices (E : Env) (symbol : pystr) (k : float)
  (expiry_date option_type : pystr) (w w' : World) (dct : pydict) :
  get_option_premium E symbol k expiry_date option_type w
  = (Ret (VDict dct), w') ->
  has_key dct (py "error") = false ->
  exists d c r zv zo,
    parse_expiry (ucd E) expiry_date = Some d /\
    yf_option_chain E (py_upper (ucd E) symbol) (strftime_iso d) = Ret c /\
    first_within (select_table E option_type c) k = Some r /\
    dict_get dct (py "volume") = Some (VInt zv) /\
    (is_nan (volume r) = true -> zv = 0) /\
    (is_nan (volume r) = false -> py_int (volume r) = Ret zv) /\
    dict_get dct (py "open_interest") = Some (VInt zo) /\
    (is_nan (openInterest r) = true -> zo = 0) /\
    (is_nan (openInterest r) = false -> py_int (openInterest r) = Ret zo) /\
    dict_get dct (py "last_price")
    = Some (if is_nan (lastPrice r) then VNone else VFloat (lastPrice r)) /\
    dict_get dct (py "implied_volatility")
    = Some (if is_nan (impliedVolatility r) then VNone
            else VFloat (impliedVolatility r)).
Proof.
  intros H Herr.
  destruct (contract_inversion _ _ _ _ _ _ _ _ H Herr)
    as (d & c & r & Hd & Hc & Hf & Hrow).
  destruct (premium_of_row_contract _ _ _ _ _ _ Hrow)
    as (vo & oi & Hvo & Hoi & [= ->]).
  destruct (int_or_zero_value _ _ Hvo) as (zv & -> & Hv0 & Hv1).
  destruct (int_or_zero_value _ _ Hoi) as (zo & -> & Ho0 & Ho1).
  exists d, c, r, zv, zo.
  repeat (split; [assumption|]).
  unfold float_or_none, notna.
  destruct (is_nan (bid r)), (is_nan (ask r)), (is_nan (lastPrice r)),
    (is_nan (impliedVolatility r)); cbn [negb andb];
    repeat split; try assumption; reflexivity.
Qed.

Lemma contract_counts_and_prices_witness :
  exists dct w',
    get_option_premium
      (sample_env 200 (Ret sample_chain) (argsort_insertion true))
      (py "aapl") (float_of_Z 105) (py "2025-11-07") (py "call") empty_world
    = (Ret (VDict dct), w') /\
    dict_get dct (py "volume") = Some (VInt 10) /\
    dict_get dct (py "last_price") = Some VNone /\
    dict_get dct (py "bid") = Some VNone /\
    has_key dct (py "mid_price") = false.
Proof.
  eexists. eexists. split; [reflexivity|].
  match goal with
  | |- dict_get ?dct _ = _ /\ _ =>
      destruct (contract_counts_and_prices
                  (sample_env 200 (Ret sample_chain) (argsort_insertion true))
                  (py "aapl") (float_of_Z 105) (py "2025-11-07") (py "call")
                  empty_world _ dct eq_refl eq_refl)
        as (d & c & r & zv & zo & _ & Hc & Hf & _ & _ & _ & _ & _ & _ & Hlp & _)
  end.
  cbn [yf_option_chain sample_env] in Hc. injection Hc as <-.
  vm_compute in Hf. injection Hf as <-.
  split; [reflexivity|]. split; [exact Hlp|]. split; reflexivity.
Defined.

(** X12.  A first matching row whose volume or open interest is an
    infinity gives no contract: the cast to an integer raises, and the
    tool returns the error dict of its outer handler. *)
Theorem infinite_count_is_an_error (E : Env) (symbol : pystr) (k : float)
  (expiry_date option_type : pystr) (w : World) (d : date)
  (c : OptionChain) (r : Row) :
  parse_expiry (ucd E) expiry_date = Some d ->
  yf_Ticker E (py_upper (ucd E) symbol) = Ret tt ->
  yf_option_chain E (py_upper (ucd E) symbol) (strftime_iso d) = Ret c ->
  first_within (select_table E option_type c) k = Some r ->
  (exists s, volume r = S754_infinity s) \/
  (exists s, openInterest r = S754_infinity s) ->
  fst (get_option_premium E symbol k expiry_date option_type w)
  = Ret (error_dict
           (py "Error fetching option premium: cannot convert float infinity to integer")).
Proof.
  intros Hd Ht Hc Hf Hinf.
  rewrite (premium_chain_fetched _ _ _ _ _ _ d c Hd Ht Hc). cbn [fst].
  rewrite (lookup_premium_found _ _ _ _ _ _ _ Hf).
  unfold premium_of_row, build_result, int_or_zero, notna.
  destruct (volume r) as [sv|sv| |sv mv ev]; cbn [is_nan negb py_int];
    try reflexivity;
    destruct Hinf as [[s Hs]|[s ->]]; try discriminate Hs;
    reflexivity.
Qed.

Lemma infinite_count_is_an_error_witness :
  fst (get_option_premium
         (sample_env 200 (Ret overflow_chain) (argsort_insertion true))
         (py "aapl") (float_of_Z 100) (py "2025-11-07") (py "call")
         empty_world)
  = Ret (error_dict
           (py "Error fetching option premium: cannot convert float infinity to integer")).
Proof.
  apply (infinite_count_is_an_error
           (sample_env 200 (Ret overflow_chain) (argsort_insertion true))
           (py "aapl") (float_of_Z 100) (py "2025-11-07") (py "call")
           empty_world (mkdate 2025 11 7) overflow_chain
           {| strike := float_of_Z 100; lastPrice := float_of_Z 1;
              bid := float_of_Z 1; ask := float_of_Z 2;
              volume := S754_infinity false; openInterest := float_of_Z 20;
              impliedVolatility := float_of_decimal 5 10 |});
    try reflexivity.
  left. exists false. reflexivity.
Defined.

Lemma non_finite_never_within (k : float) (r : Row) :
  not_finite k = true \/ not_finite (strike r) = true ->
  within_tolerance k r = false.
Proof.
  unfold within_tolerance.
  intros [H|H].
  - destruct k as [s|s| |s m e]; try discriminate H;
      destruct (strike r) as [s'|s'| |s' m' e']; try reflexivity;
      destruct s, s'; reflexivity.
  - destruct (strike r) as [s'|s'| |s' m' e']; try discriminate H;
      destruct k as [s|s| |s m e]; try reflexivity;
      destruct s, s'; reflexivity.
Qed.

(** X13.  A requested strike that is NaN or an infinity matches no row,
    and a row whose strike is NaN or an infinity matches no request: for
    such a request the tool always answers with an error dict, never with
    a contract. *)
Theorem non_finite_strike_never_matches (E : Env) (symbol : pystr)
  (k : float) (expiry_date option_type : pystr) (w : World) :
  not_finite k = true ->
  (forall r, within_tolerance k r = false) /\
  (forall k' r, not_finite (strike r) = true ->
                within_tolerance k' r = false) /\
  exists dct,
    fst (get_option_premium E symbol k expiry_date option_type w)
    = Ret (VDict dct) /\
    has_key dct (py "error") = true.
Proof.
  intros Hk.
  assert (forall r, within_tolerance k r = false) as Hnone.
  { intros r. apply non_finite_never_within. now left. }
  split; [assumption|].
  split; [intros k' r Hr; apply non_finite_never_within; now right|].
  destruct (premium_cases E symbol k expiry_date option_type w)
    as [[Hd ->]|[(d & e & Hd & Ht & ->)|[(d & e & Hd & Ht & Hc & ->)
                                        |(d & c & Hd & Ht & Hc & ->)]]];
    cbn [fst]; try (eexists; split; reflexivity).
  assert (first_within (select_table E option_type c) k = None) as Hf.
  { destruct (first_within (select_table E option_type c) k) as [r|] eqn:Hf;
      [|reflexivity].
    apply first_within_position in Hf as (_ & _ & _ & _ & Hr).
    now rewrite Hnone in Hr. }
  rewrite (lookup_premium_not_found _ _ _ _ _ _ Hf).
  destruct (closest_strikes E (select_table E option_type c) k);
    eexists; split; reflexivity.
Qed.

Lemma non_finite_strike_never_matches_witness :
  exists dct,
    fst (get_option_premium
           (sample_env 200 (Ret sample_chain) (argsort_insertion true))
           (py "aapl") S754_nan (py "2025-11-07") (py "call") empty_world)
    = Ret (VDict dct) /\
    has_key dct (py "error") = true.
Proof.
  apply (proj2 (proj2
           (non_finite_strike_never_matches
              (sample_env 200 (Ret sample_chain) (argsort_insertion true))
              (py "aapl") S754_nan (py "2025-11-07") (py "call") empty_world
              eq_refl))).
Defined.

(** X14.  When the selected table is empty, as for a symbol that has no
    puts at that date, the tool answers "No option found" with an empty
    list of nearby strikes (argsort's answer for no keys being the empty
    one, as its contract has it). *)
Theorem empty_table_not_found (E : Env) (symbol : pystr) (k : float)
  (expiry_date option_type : pystr) (w : World) (d : date)
  (c : OptionChain) :
  parse_expiry (ucd E) expiry_date = Some d ->
  yf_Ticker E (py_upper (ucd E) symbol) = Ret tt ->
  yf_option_chain E (py_upper (ucd E) symbol) (strftime_iso d) = Ret c ->
  select_table E option_type c = [] ->
  argsort_contract [] (np_argsort E []) = true ->
  fst (get_option_premium E symbol k expiry_date option_type w)
  = Ret (VDict
           [ (py "error",
               VStr (py "No option found with strike " ++ float_str E k));
             (py "available_strikes_nearby", VList []);
             (py "requested_strike", VFloat k);
             (py "expiry_date", VStr (strftime_iso d));
             (py "option_type", VStr option_type) ]).
Proof.
  intros Hd Ht Hc Hempty Hcontract.
  rewrite (premium_chain_fetched _ _ _ _ _ _ d c Hd Ht Hc). cbn [fst].
  unfold lookup_premium, closest_strikes. rewrite Hempty.
  cbn [matching_rows filter distances map].
  destruct (np_argsort E []) as [|i p].
  - reflexivity.
  - discriminate Hcontract.
Qed.

Lemma empty_table_not_found_witness :
  fst (get_option_premium
         (sample_env 200 (Ret overflow_chain) (argsort_insertion true))
         (py "aapl") (float_of_Z 100) (py "2025-11-07") (py "put")
         empty_world)
  = Ret (VDict
           [ (py "error", VStr (py "No option found with strike 100.0"));
             (py "available_strikes_nearby", VList []);
             (py "requested_strike", VFloat (float_of_Z 100));
             (py "expiry_date", VStr (py "2025-11-07"));
             (py "option_type", VStr (py "put")) ]).
Proof.
  apply (empty_table_not_found
           (sample_env 200 (Ret overflow_chain) (argsort_insertion true))
           (py "aapl") (float_of_Z 100) (py "2025-11-07") (py "put")
           empty_world (mkdate 2025 11 7) overflow_chain);
    reflexivity.
Defined.

(** X15.  The option type is a two-way switch, not a checked value: any
    casing of "call" selects the calls, and every other string selects
    the puts, "put" as much as "calls", "c" or the empty string.  Two
    casings of one option type select the same table. *)
Theorem select_table_two_way (E : Env) (option_type : pystr)
  (c : OptionChain) :
  (casing_of option_type (py "call") = true ->
   select_table E option_type c = chain_calls c) /\
  (py_lower (ucd E) option_type <> py "call" ->
   select_table E option_type c = chain_puts c) /\
  (forall other,
      casing_of option_type other = true ->
      select_table E option_type c = select_table E other c) /\
  select_table E (py "calls") c = chain_puts c /\
  select_table E (py "c") c = chain_puts c /\
  select_table E [] c = chain_puts c.
Proof.
  unfold select_table. repeat split.
  - intros H. now rewrite (py_lower_casing (ucd E) _ _ H).
  - intros H.
    destruct (pystr_eqb (py_lower (ucd E) option_type) (py "call")) eqn:Heq;
      [|reflexivity].
    apply pystr_eqb_eq in Heq. contradiction.
  - intros other H. now rewrite (casing_of_lower (ucd E) _ _ H).
Qed.

Lemma select_table_two_way_witness :
  select_table (sample_env 200 (Ret sample_chain) (argsort_insertion true))
    (py "CaLl") sample_chain = chain_calls sample_chain /\
  select_table (sample_env 200 (Ret sample_chain) (argsort_insertion true))
    (py "option") sample_chain = chain_puts sample_chain.
Proof.
  split.
  - apply (proj1 (select_table_two_way
                    (sample_env 200 (Ret sample_chain)
                       (argsort_insertion true))
                    (py "CaLl") sample_chain)).
    reflexivity.
  - apply (proj1 (proj2 (select_table_two_way
                           (sample_env 200 (Ret sample_chain)
                              (argsort_insertion true))
                           (py "option") sample_chain))).
    intros H. vm_compute in H. discriminate H.
Defined.

(* ================================================================== *)
(** * Further properties: the spellings of a date *)

Lemma four_digits_range (y : Z) : 1000 <= y <= 9999 -> four_digits y = true.
Proof.
  intros H.
  assert (forallb four_digits (map (fun n => 1000 + Z.of_nat n) (seq 0 (Z.to_nat 9000)))
          = true) as Hall by (vm_compute; reflexivity).
  rewrite forallb_forall in Hall. apply Hall.
  apply in_map_iff. exists (Z.to_nat (y - 1000)). split; [lia|].
  apply in_seq. lia.
Qed.

Lemma small_cases (n : nat) (z : Z) :
  1 <= z <= Z.of_nat n -> In z (map Z.of_nat (seq 1 n)).
Proof.
  intros H. apply in_map_iff. exists (Z.to_nat z). split; [lia|].
  apply in_seq. lia.
Qed.

Ltac each_case H :=
  repeat (destruct H as [H|H]; [subst|]); [..|destruct H].

Ltac spell :=
  repeat match goal with
         | |- context [month_or_day ?p ?m] =>
             let v := eval vm_compute in (month_or_day p m) in
             change (month_or_day p m) with v
         end.

Lemma char_in_app (c : codepoint) (s t : pystr) :
  char_in c (s ++ t) = char_in c s || char_in c t.
Proof. apply existsb_app. Qed.

Lemma char_in_cons (c x : codepoint) (s : pystr) :
  char_in c (x :: s) = N.eqb c x || char_in c s.
Proof. reflexivity. Qed.

Section Spellings.
Variable U : Unicode.

Lemma digit_val_ascii (c : codepoint) :
  in_range 48%N 57%N c = true -> digit_val U c = Some (ascii_digit c).
Proof.
  unfold digit_val, in_range, ascii_digit. now intros ->.
Qed.

Lemma year_matches (y : Z) (fmt : list directive) (rest : pystr) (acc : date) :
  four_digits y = true ->
  match_format U (DirY :: fmt) (str_of_Z y ++ rest) acc
  = match_format U fmt rest (set_field DirY y acc).
Proof.
  unfold four_digits.
  destruct (str_of_Z y) as [|a [|b [|c [|d [|x l]]]]]; try discriminate.
  intros H.
  apply andb_prop in H as [H Hv]. apply andb_prop in H as [H Hd].
  apply andb_prop in H as [H Hc]. apply andb_prop in H as [Ha Hb].
  apply Z.eqb_eq in Hv.
  cbn [match_format alternatives first_some app alt_dddd].
  rewrite (digit_val_ascii a Ha), (digit_val_ascii b Hb),
    (digit_val_ascii c Hc), (digit_val_ascii d Hd), Hv.
  now destruct (match_format U fmt rest (set_field DirY y acc)).
Qed.

Lemma literal_matches (c : codepoint) (fmt : list directive) (rest : pystr)
  (acc : date) :
  match_format U (Lit c :: fmt) (c :: rest) acc = match_format U fmt rest acc.
Proof.
  cbn [match_format alternatives first_some set_field].
  rewrite N.eqb_refl.
  now destruct (match_format U fmt rest acc).
Qed.

Lemma month_matches (padded : bool) (m : Z) (sep : codepoint)
  (fmt : list directive) (rest : pystr) (acc : date) :
  1 <= m <= 12 -> sep = 45%N \/ sep = 47%N ->
  match_format U (DirM :: Lit sep :: fmt)
    (month_or_day padded m ++ sep :: rest) acc
  = match_format U fmt rest (set_field DirM m acc).
Proof.
  intros Hm Hsep. apply (small_cases 12) in Hm. cbn in Hm.
  destruct padded; destruct Hsep as [-> | ->]; each_case Hm; spell;
    cbn [match_format alternatives first_some app alt2 alt1 in_range
         N.eqb N.leb Pos.eqb N.compare Pos.compare Pos.compare_cont andb
         digit_val ascii_digit N.ltb];
    cbn;
    match goal with
    | |- context [match_format U fmt rest ?a] =>
        destruct (match_format U fmt rest a) as [[? ?]|]
    end; reflexivity.
Qed.

Lemma day_matches (padded : bool) (n : Z) (sep : codepoint)
  (fmt : list directive) (rest : pystr) (acc : date) :
  1 <= n <= 31 -> sep = 45%N \/ sep = 47%N ->
  match_format U (DirD :: Lit sep :: fmt)
    (month_or_day padded n ++ sep :: rest) acc
  = match_format U fmt rest (set_field DirD n acc).
Proof.
  intros Hn Hsep. apply (small_cases 31) in Hn. cbn in Hn.
  destruct padded; destruct Hsep as [-> | ->]; each_case Hn; spell;
    cbn;
    match goal with
    | |- context [match_format U fmt rest ?a] =>
        destruct (match_format U fmt rest a) as [[? ?]|]
    end; reflexivity.
Qed.

Lemma day_at_end (padded : bool) (n : Z) (acc : date) :
  1 <= n <= 31 ->
  match_format U [DirD] (month_or_day padded n) acc
  = Some (set_field DirD n acc, []).
Proof.
  intros Hn. apply (small_cases 31) in Hn. cbn in Hn.
  destruct padded; each_case Hn; reflexivity.
Qed.

Lemma no_slash_in_number (padded : bool) (n : Z) :
  1 <= n <= 31 -> char_in 47%N (month_or_day padded n) = false.
Proof.
  intros Hn. apply (small_cases 31) in Hn. cbn in Hn.
  destruct padded; each_case Hn; reflexivity.
Qed.

Lemma no_slash_in_year (y : Z) :
  four_digits y = true -> char_in 47%N (str_of_Z y) = false.
Proof.
  unfold four_digits, char_in, in_range.
  destruct (str_of_Z y) as [|a [|b [|c [|d [|x l]]]]]; try discriminate.
  intros H.
  apply andb_prop in H as [H _]. apply andb_prop in H as [H Hd].
  apply andb_prop in H as [H Hc]. apply andb_prop in H as [Ha Hb].
  cbn [existsb].
  assert (forall c, (48 <=? c)%N && (c <=? 57)%N = true ->
                    (47 =? c)%N = false) as Hne.
  { intros c0 Hc0. apply andb_prop in Hc0 as [Hlo _].
    apply N.leb_le in Hlo. apply N.eqb_neq. lia. }
  now rewrite (Hne a Ha), (Hne b Hb), (Hne c Hc), (Hne d Hd).
Qed.

Lemma valid_date_ranges (d : date) :
  valid_date d = true ->
  1 <= year d <= 9999 /\ 1 <= month d <= 12 /\ 1 <= day d <= 31.
Proof.
  unfold valid_date, days_in_month. intros H.
  repeat (apply andb_prop in H as [H ?]).
  repeat match goal with
         | Hx : (_ <=? _) = true |- _ => apply Z.leb_le in Hx
         end.
  repeat split; try assumption.
  destruct (month d =? 2);
    [destruct (is_leap (year d))
    |destruct ((month d =? 4) || (month d =? 6) || (month d =? 9)
               || (month d =? 11))]; lia.
Qed.

Lemma parse_iso_text (padded : bool) (d : date) :
  valid_date d = true -> 1000 <= year d ->
  parse_expiry U (iso_text padded d) = Some d.
Proof.
  intros Hv Hy.
  destruct (valid_date_ranges d Hv) as (Hyr & Hm & Hd).
  assert (four_digits (year d) = true) as H4
    by (apply four_digits_range; lia).
  unfold parse_expiry.
  assert (char_in 47%N (iso_text padded d) = false) as Hslash.
  { unfold iso_text.
    rewrite char_in_app, char_in_cons, char_in_app, char_in_cons.
    rewrite (no_slash_in_year _ H4), (no_slash_in_number _ (month d)),
      (no_slash_in_number _ _ Hd) by lia.
    reflexivity. }
  rewrite Hslash. unfold strptime.
  change (compile_format (py "%Y-%m-%d"))
    with (Some [DirY; Lit 45%N; DirM; Lit 45%N; DirD]).
  unfold iso_text.
  rewrite (year_matches _ _ _ _ H4).
  rewrite literal_matches.
  rewrite (month_matches padded (month d) 45%N [DirD]) by auto.
  rewrite (day_at_end padded (day d)) by assumption.
  destruct d as [y m n]. cbn [set_field year month day] in *.
  now rewrite Hv.
Qed.

Lemma parse_us_text (padded : bool) (d : date) :
  valid_date d = true -> 1000 <= year d ->
  parse_expiry U (us_text padded d) = Some d.
Proof.
  intros Hv Hy.
  destruct (valid_date_ranges d Hv) as (Hyr & Hm & Hd).
  assert (four_digits (year d) = true) as H4
    by (apply four_digits_range; lia).
  unfold parse_expiry.
  assert (char_in 47%N (us_text padded d) = true) as Hslash.
  { unfold us_text. rewrite char_in_app, char_in_cons.
    cbn [N.eqb Pos.eqb orb]. apply orb_true_r. }
  rewrite Hslash. unfold strptime.
  change (compile_format (py "%m/%d/%Y"))
    with (Some [DirM; Lit 47%N; DirD; Lit 47%N; DirY]).
  unfold us_text.
  rewrite (month_matches padded (month d) 47%N) by auto.
  rewrite (day_matches padded (day d) 47%N) by auto.
  rewrite <- (app_nil_r (str_of_Z (year d))).
  rewrite (year_matches _ _ _ _ H4).
  cbn [match_format]. destruct d as [y m n].
  cbn [set_field year month day] in *.
  now rewrite Hv.
Qed.

Lemma parse_expiry_valid (s : pystr) (d : date) :
  parse_expiry U s = Some d -> valid_date d = true.
Proof.
  unfold parse_expiry, strptime.
  destruct (char_in 47%N s);
    [destruct (compile_format (py "%m/%d/%Y"))
    |destruct (compile_format (py "%Y-%m-%d"))]; try discriminate;
    match goal with
    | |- context [match_format U ?f s ?a] =>
        destruct (match_format U f s a) as [[d' [|x rest]]|]
    end; try discriminate;
    destruct (valid_date d') eqn:Hv; try discriminate;
    now intros [= <-].
Qed.
End Spellings.

(** X16.  A calendar date with a four-digit year is read back from both
    of its spellings, YYYY-MM-DD and MM/DD/YYYY, with month and day in two
    digits or without the leading zero; the tool depends on the spelling
    only through the date, so all four make it do the same. *)
Theorem expiry_spellings_agree (E : Env) (d : date) :
  valid_date d = true ->
  1000 <= year d ->
  (forall padded,
      parse_expiry (ucd E) (iso_text padded d) = Some d /\
      parse_expiry (ucd E) (us_text padded d) = Some d) /\
  (forall symbol k option_type w p q,
      get_option_premium E symbol k (iso_text p d) option_type w
      = get_option_premium E symbol k (us_text q d) option_type w).
Proof.
  intros Hv Hy. split.
  - intros padded. split.
    + now apply parse_iso_text.
    + now apply parse_us_text.
  - intros symbol k option_type w p q.
    unfold get_option_premium, get_option_premium_body.
    now rewrite (parse_iso_text (ucd E) p d Hv Hy),
      (parse_us_text (ucd E) q d Hv Hy).
Qed.

Lemma expiry_spellings_agree_witness :
  valid_date (mkdate 2025 11 7) = true /\
  parse_expiry ucd_excerpt (py "2025-11-7") = Some (mkdate 2025 11 7) /\
  parse_expiry ucd_excerpt (py "11/7/2025") = Some (mkdate 2025 11 7).
Proof.
  split; [reflexivity|].
  apply (proj1 (expiry_spellings_agree
                  (sample_env 200 (Ret sample_chain) (argsort_insertion true))
                  (mkdate 2025 11 7) eq_refl ltac:(discriminate)) false).
Defined.

(** X17.  Only dates of the calendar pass the parsing: year 1 to 9999,
    month 1 to 12, a day the month has.  For a year of four digits the
    date as the tool reports it and sends it to the provider, in the form
    YYYY-MM-DD, is read back as the same date, and given back to the tool
    as the expiry date it makes the tool do the same. *)
Theorem expiry_normal_form_round_trip (E : Env) (s : pystr) (d : date) :
  parse_expiry (ucd E) s = Some d ->
  valid_date d = true /\
  (1000 <= year d ->
   parse_expiry (ucd E) (strftime_iso d) = Some d /\
   forall symbol k option_type w,
     get_option_premium E symbol k (strftime_iso d) option_type w
     = get_option_premium E symbol k s option_type w).
Proof.
  intros Hs. pose proof (parse_expiry_valid (ucd E) s d Hs) as Hv.
  split; [assumption|]. intros Hy.
  assert (parse_expiry (ucd E) (strftime_iso d) = Some d) as Hiso
    by apply (parse_iso_text (ucd E) true d Hv Hy).
  split; [assumption|].
  intros symbol k option_type w.
  unfold get_option_premium, get_option_premium_body.
  now rewrite Hiso, Hs.
Qed.

Lemma expiry_normal_form_round_trip_witness :
  parse_expiry ucd_excerpt (py "2/29/2024") = Some (mkdate 2024 2 29) /\
  valid_date (mkdate 2024 2 29) = true /\
  parse_expiry ucd_excerpt (py "2024-02-29") = Some (mkdate 2024 2 29).
Proof.
  split; [reflexivity|].
  destruct (expiry_normal_form_round_trip
              (sample_env 200 (Ret sample_chain) (argsort_insertion true))
              (py "2/29/2024") (mkdate 2024 2 29) eq_refl) as [Hv Hrt].
  split; [exact Hv|]. apply Hrt. discriminate.
Defined.
